(** * dso-data-type-generalizer: the type-map parser and the column generalizer

    A shallow embedding of [src/main.py].  [generalize_data_type] and [main]
    are translated statement by statement; the calls they make into Python,
    NumPy and pandas ([str.split], [str.strip], [Series.astype], ...) are
    given by the definitions of the modules [PyStr] and [Pandas] below.

    Conventions.
    - pandas is the NumPy-backed one: a column of text has dtype [object],
      a column of whole numbers [int64], of decimals or with missing cells
      [float64], of True/False [bool].
    - A Python [str] is a [string]; each character is a code point below 256.
    - A Python exception is a value of [exn]; a computation that may raise
      returns a [result].
    - The DataFrame is mutated in place by the source, so the column loop
      threads the frame and the log records through a state monad. *)

From Stdlib Require Import ZArith Ascii String Floats.SpecFloat DecimalString DecimalPos.
From stdpp Require Import gmap strings list.

Open Scope Z_scope.
Open Scope string_scope.
Open Scope list_scope.

(** ** Exceptions and fallible results *)

(** The handlers of [main] tell three classes apart: [FileNotFoundError],
    [ValueError] and every other [Exception] (named by its class). *)
Inductive exn :=
| ValueError (msg : string)
| FileNotFoundError (msg : string)
| OtherException (cls msg : string).

Inductive result (A : Type) :=
| Ok (a : A)
| Raise (e : exn).
Arguments Ok {A} a.
Arguments Raise {A} e.

Definition exn_msg (e : exn) : string :=
  match e with
  | ValueError m | FileNotFoundError m | OtherException _ m => m
  end.

Definition is_ok {A} (r : result A) : bool :=
  match r with Ok _ => true | Raise _ => false end.

Definition rbind {A B} (r : result A) (k : A -> result B) : result B :=
  match r with
  | Ok a => k a
  | Raise e => Raise e
  end.

(** Element-wise conversion, left to right, stopping at the first cell that
    raises (how NumPy runs a cast over an array). *)
Fixpoint mapR {A B} (f : A -> result B) (l : list A) : result (list B) :=
  match l with
  | [] => Ok []
  | x :: xs =>
      rbind (f x) (fun y => rbind (mapR f xs) (fun ys => Ok (y :: ys)))
  end.

(** ** Python string operations *)

Module PyStr.

Definition code (c : Ascii.ascii) : N := Ascii.N_of_ascii c.

(** [str.isspace] on the code points below 256: TAB..CR, FS..US, space,
    NEL and NBSP. *)
Definition is_space (c : Ascii.ascii) : bool :=
  let n := code c in
  ((9 <=? n) && (n <=? 13) || (28 <=? n) && (n <=? 32)
   || (n =? 133) || (n =? 160))%N.

(** [str.lower] on the code points below 256: A..Z and the Latin-1
    capitals (all of U+00C0..U+00DE but the multiplication sign). *)
Definition lower_char (c : Ascii.ascii) : Ascii.ascii :=
  let n := code c in
  if ((65 <=? n) && (n <=? 90)
      || (192 <=? n) && (n <=? 222) && negb (n =? 215))%N
  then Ascii.ascii_of_N (n + 32)
  else c.

Fixpoint lower (s : string) : string :=
  match s with
  | EmptyString => EmptyString
  | String c s' => String (lower_char c) (lower s')
  end.

Fixpoint lstrip (s : string) : string :=
  match s with
  | EmptyString => EmptyString
  | String c s' => if is_space c then lstrip s' else s
  end.

Fixpoint rstrip (s : string) : string :=
  match s with
  | EmptyString => EmptyString
  | String c s' =>
      match rstrip s' with
      | EmptyString => if is_space c then EmptyString else String c EmptyString
      | r => String c r
      end
  end.

(** [s.strip()] *)
Definition strip (s : string) : string := rstrip (lstrip s).

(** [s.split(sep)] for a one-character separator: every occurrence cuts,
    empty pieces are kept, and the empty string gives one empty piece. *)
Fixpoint split (sep : Ascii.ascii) (s : string) : list string :=
  match s with
  | EmptyString => [EmptyString]
  | String c s' =>
      if Ascii.eqb c sep then EmptyString :: split sep s'
      else match split sep s' with
           | [] => [String c EmptyString]
           | w :: ws => String c w :: ws
           end
  end.

(** [str(n)] for an integer. *)
Definition of_Z (z : Z) : string := NilZero.string_of_int (Z.to_int z).

(** [str(b)] for a boolean. *)
Definition of_bool (b : bool) : string := if b then "True" else "False".

(** [x in l] for a list of strings. *)
Definition mem (x : string) (l : list string) : bool :=
  bool_decide (x ∈ l).

End PyStr.

(** ** The type-map parser (lines 39-55) *)

Definition vocabulary : list string := ["int"; "float"; "str"; "bool"; "object"].

Definition supported_types_msg : string :=
  ". Supported types are: int, float, str, bool, object.".

(** [old_type, new_type = conversion.split(':')]: unpacking into two names
    raises [ValueError] unless the split has exactly two pieces. *)
Definition unpack2 (pieces : list string) : result (string * string) :=
  match pieces with
  | [a; b] => Ok (a, b)
  | [] | [_] =>
      Raise (ValueError ("not enough values to unpack (expected 2, got "
                           +:+ PyStr.of_Z (Z.of_nat (length pieces)) +:+ ")"))
  | _ => Raise (ValueError "too many values to unpack (expected 2)")
  end.

(** One iteration of the loop body, lines 42-49: the pair to store. *)
Definition parse_conversion (conversion : string) : result (string * string) :=
  rbind (unpack2 (PyStr.split ":"%char conversion)) (fun '(old_type, new_type) =>
  let old_type := PyStr.lower (PyStr.strip old_type) in
  let new_type := PyStr.lower (PyStr.strip new_type) in
  if negb (PyStr.mem old_type vocabulary) then
    Raise (ValueError ("Invalid old type: " +:+ old_type +:+ supported_types_msg))
  else if negb (PyStr.mem new_type vocabulary) then
    Raise (ValueError ("Invalid new type: " +:+ new_type +:+ supported_types_msg))
  else Ok (old_type, new_type)).

(** The [for] loop of lines 41-51 over the pieces that remain, with the
    dictionary built so far. *)
Fixpoint parse_conversions (convs : list string) (type_map : gmap string string)
  : result (gmap string string) :=
  match convs with
  | [] => Ok type_map
  | conversion :: rest =>
      rbind (parse_conversion conversion) (fun '(old_type, new_type) =>
      parse_conversions rest (<[old_type := new_type]> type_map))
  end.

Definition parse_type_map (type_map_str : string) : result (gmap string string) :=
  parse_conversions (PyStr.split ","%char type_map_str) ∅.


(** ** Cells, series and frames *)

(** The Python scalars a table loaded from a CSV file can hold: text,
    integers, floats (a missing cell is the float NaN) and booleans. *)
Inductive pyval :=
| PyStr (s : string)
| PyInt (z : Z)
| PyFloat (f : spec_float)
| PyBool (b : bool).

(** What [is_integer_dtype], [is_float_dtype] and [is_bool_dtype] answer
    for a dtype: a dtype is of one kind at most. *)
Inductive dtype_kind := kind_integer | kind_floating | kind_boolean | kind_other.

Inductive dtype :=
| dt_object
| dt_int64
| dt_float64
| dt_bool
| dt_other (name : string) (kind : dtype_kind).

(** A column with its storage dtype.  A typed column holds native values; an
    [object] column holds any scalars, mixed; [OtherSeries] stands for the
    remaining pandas dtypes, each with its name and its kind (uint64 and
    int32 are integer, float32 is floating, datetime64 and category are of
    no numeric kind). *)
Inductive series :=
| ObjectSeries (cells : list pyval)
| Int64Series (cells : list Z)
| Float64Series (cells : list spec_float)
| BoolSeries (cells : list bool)
| OtherSeries (name : string) (kind : dtype_kind) (cells : list pyval).

(** The argument of [astype] at lines 64 and 85-91. *)
Inductive pytype := ty_float | ty_str | ty_int | ty_bool.

(** What the model leaves to the interpreter and to pandas: the decimal
    text of a finite non-zero float, the parsing of text as a float, and
    [astype] on the dtypes of [OtherSeries]. *)
Record runtime := {
  float_repr : spec_float -> string;
  float_of_str : string -> option spec_float;
  astype_other : pytype -> string -> dtype_kind -> list pyval -> result series
}.

Module Pandas.

Definition dtype_of (s : series) : dtype :=
  match s with
  | ObjectSeries _ => dt_object
  | Int64Series _ => dt_int64
  | Float64Series _ => dt_float64
  | BoolSeries _ => dt_bool
  | OtherSeries name kind _ => dt_other name kind
  end.

(** [col_type == 'object'] *)
Definition dtype_is_object (d : dtype) : bool :=
  match d with dt_object => true | _ => false end.

Definition is_integer_dtype (s : series) : bool :=
  match dtype_of s with
  | dt_int64 | dt_other _ kind_integer => true
  | _ => false
  end.

Definition is_float_dtype (s : series) : bool :=
  match dtype_of s with
  | dt_float64 | dt_other _ kind_floating => true
  | _ => false
  end.

Definition is_bool_dtype (s : series) : bool :=
  match dtype_of s with
  | dt_bool | dt_other _ kind_boolean => true
  | _ => false
  end.

(** *** float64 and int64 *)

Definition float_of_Z (z : Z) : spec_float := binary_normalize 53 1024 z 0 false.

Definition float_of_bool (b : bool) : spec_float := float_of_Z (Z.b2z b).

Definition is_finite (f : spec_float) : bool :=
  match f with
  | S754_zero _ | S754_finite _ _ _ => true
  | S754_infinity _ | S754_nan => false
  end.

Definition is_nan (f : spec_float) : bool :=
  match f with S754_nan => true | _ => false end.

Definition is_zero (f : spec_float) : bool :=
  match f with S754_zero _ => true | _ => false end.

(** The integer part of a finite float, rounding toward zero. *)
Definition trunc (f : spec_float) : Z :=
  match f with
  | S754_finite s m e => cond_Zopp s (Z.shiftl (Z.pos m) e)
  | _ => 0
  end.

Definition int64_min : Z := (- 2 ^ 63)%Z.
Definition int64_max : Z := (2 ^ 63 - 1)%Z.

Definition in_int64 (z : Z) : bool :=
  ((int64_min <=? z) && (z <=? int64_max))%Z.

(** The C cast NumPy applies to a finite float64: truncation; out of
    range the usual x86-64 build gives the least int64. *)
Definition float_to_int64 (f : spec_float) : Z :=
  if in_int64 (trunc f) then trunc f else int64_min.

(** *** [str(x)] *)

Definition str_of_float (py : runtime) (f : spec_float) : string :=
  match f with
  | S754_nan => "nan"
  | S754_infinity false => "inf"
  | S754_infinity true => "-inf"
  | S754_zero false => "0.0"
  | S754_zero true => "-0.0"
  | S754_finite _ _ _ => float_repr py f
  end.

Definition py_str (py : runtime) (v : pyval) : string :=
  match v with
  | PyStr s => s
  | PyInt z => PyStr.of_Z z
  | PyFloat f => str_of_float py f
  | PyBool b => PyStr.of_bool b
  end.

(** *** [int(x)], then the store into an int64 array *)

Definition is_digit (c : Ascii.ascii) : bool :=
  ((48 <=? PyStr.code c) && (PyStr.code c <=? 57))%N.

Definition digit_value (c : Ascii.ascii) : Z := (Z.of_N (PyStr.code c) - 48)%Z.

(** Decimal digits, single underscores allowed between two digits. *)
Fixpoint digits (s : string) (acc : Z) (after_digit : bool) : option Z :=
  match s with
  | EmptyString => if after_digit then Some acc else None
  | String c s' =>
      if is_digit c then digits s' (acc * 10 + digit_value c)%Z true
      else if Ascii.eqb c "_"%char then
        if after_digit then digits s' acc false else None
      else None
  end.

(** The whitespace [int()] skips around a literal: TAB..CR and the space,
    and NEL and NBSP, which it first replaces by a space.  The separators
    FS..US, which [str.strip] removes, are not skipped. *)
Definition is_int_space (c : Ascii.ascii) : bool :=
  let n := PyStr.code c in
  ((9 <=? n) && (n <=? 13) || (n =? 32) || (n =? 133) || (n =? 160))%N.

Fixpoint int_lstrip (s : string) : string :=
  match s with
  | EmptyString => EmptyString
  | String c s' => if is_int_space c then int_lstrip s' else s
  end.

Fixpoint int_rstrip (s : string) : string :=
  match s with
  | EmptyString => EmptyString
  | String c s' =>
      match int_rstrip s' with
      | EmptyString => if is_int_space c then EmptyString else String c EmptyString
      | r => String c r
      end
  end.

(** [int(s)] on text: surrounding whitespace, an optional sign, digits. *)
Definition int_of_str (s : string) : option Z :=
  match int_rstrip (int_lstrip s) with
  | String "-"%char r => Z.opp <$> digits r 0 false
  | String "+"%char r => digits r 0 false
  | r => digits r 0 false
  end.

Definition to_int64 (z : Z) : result Z :=
  if in_int64 z then Ok z
  else Raise (OtherException "OverflowError" "Python int too large to convert to C long").

Definition py_int (v : pyval) : result Z :=
  match v with
  | PyStr s =>
      match int_of_str s with
      | Some z => to_int64 z
      | None =>
          Raise (ValueError ("invalid literal for int() with base 10: '" +:+ s +:+ "'"))
      end
  | PyInt z => to_int64 z
  | PyFloat f =>
      if is_nan f then Raise (ValueError "cannot convert float NaN to integer")
      else if is_finite f then to_int64 (trunc f)
      else Raise (OtherException "OverflowError" "cannot convert float infinity to integer")
  | PyBool b => Ok (Z.b2z b)
  end.

(** *** [float(x)] *)

Definition py_float (py : runtime) (v : pyval) : result spec_float :=
  match v with
  | PyStr s =>
      match float_of_str py s with
      | Some f => Ok f
      | None => Raise (ValueError ("could not convert string to float: '" +:+ s +:+ "'"))
      end
  | PyInt z =>
      if is_finite (float_of_Z z) then Ok (float_of_Z z)
      else Raise (OtherException "OverflowError" "int too large to convert to float")
  | PyFloat f => Ok f
  | PyBool b => Ok (float_of_bool b)
  end.

(** *** [bool(x)]: empty text and zero are false *)

Definition py_bool (v : pyval) : bool :=
  match v with
  | PyStr s => negb (String.eqb s "")
  | PyInt z => negb (z =? 0)%Z
  | PyFloat f => negb (is_zero f)
  | PyBool b => b
  end.

(** *** [Series.astype] *)

Definition astype_str (py : runtime) (s : series) : result series :=
  match s with
  | ObjectSeries cells => Ok (ObjectSeries (map (fun v => PyStr (py_str py v)) cells))
  | Int64Series cells => Ok (ObjectSeries (map (fun z => PyStr (PyStr.of_Z z)) cells))
  | Float64Series cells => Ok (ObjectSeries (map (fun f => PyStr (str_of_float py f)) cells))
  | BoolSeries cells => Ok (ObjectSeries (map (fun b => PyStr (PyStr.of_bool b)) cells))
  | OtherSeries name kind cells => astype_other py ty_str name kind cells
  end.

Definition astype_float (py : runtime) (s : series) : result series :=
  match s with
  | ObjectSeries cells => rbind (mapR (py_float py) cells) (fun fs => Ok (Float64Series fs))
  | Int64Series cells => Ok (Float64Series (map float_of_Z cells))
  | Float64Series cells => Ok (Float64Series cells)
  | BoolSeries cells => Ok (Float64Series (map float_of_bool cells))
  | OtherSeries name kind cells => astype_other py ty_float name kind cells
  end.

(** A float64 column with NaN or an infinity is refused as a whole
    ([IntCastingNaNError], a [ValueError]); finite values are truncated. *)
Definition astype_int (py : runtime) (s : series) : result series :=
  match s with
  | ObjectSeries cells => rbind (mapR py_int cells) (fun zs => Ok (Int64Series zs))
  | Int64Series cells => Ok (Int64Series cells)
  | Float64Series cells =>
      if forallb is_finite cells then Ok (Int64Series (map float_to_int64 cells))
      else Raise (ValueError "Cannot convert non-finite values (NA or inf) to integer")
  | BoolSeries cells => Ok (Int64Series (map Z.b2z cells))
  | OtherSeries name kind cells => astype_other py ty_int name kind cells
  end.

Definition astype_bool (py : runtime) (s : series) : result series :=
  match s with
  | ObjectSeries cells => Ok (BoolSeries (map py_bool cells))
  | Int64Series cells => Ok (BoolSeries (map (fun z => negb (z =? 0)%Z) cells))
  | Float64Series cells => Ok (BoolSeries (map (fun f => negb (is_zero f)) cells))
  | BoolSeries cells => Ok (BoolSeries cells)
  | OtherSeries name kind cells => astype_other py ty_bool name kind cells
  end.

Definition astype (py : runtime) (t : pytype) (s : series) : result series :=
  match t with
  | ty_float => astype_float py s
  | ty_str => astype_str py s
  | ty_int => astype_int py s
  | ty_bool => astype_bool py s
  end.

End Pandas.

(** ** The frame, the trace and the state of a run *)

(** A DataFrame: the columns in order, each under its label.  Labels are
    unique in every frame [read_csv] returns (see [wf_frame]). *)
Definition frame : Type := list (string * series).

Definition columns (df : frame) : list string := df.*1.

Definition wf_frame (df : frame) : Prop := NoDup (columns df).

(** [df[col]] *)
Fixpoint getitem (col : string) (df : frame) : option series :=
  match df with
  | [] => None
  | (name, s) :: rest => if String.eqb name col then Some s else getitem col rest
  end.

(** [df[col] = s]: the column of that label is replaced where it stands; a
    new label is added at the end. *)
Fixpoint setitem (col : string) (s : series) (df : frame) : frame :=
  match df with
  | [] => [(col, s)]
  | (name, s0) :: rest =>
      if String.eqb name col then (name, s) :: rest
      else (name, s0) :: setitem col s rest
  end.

Inductive level := INFO | ERROR.

(** What a run does that can be seen from outside, in order: log records
    and accesses to the file system. *)
Inductive event :=
| EvLog (lvl : level) (msg : string)
| EvPathExists (path : string)
| EvReadCsv (path : string)
| EvToCsv (path : string) (df : frame).

Record state := mk_state { st_frame : frame; st_trace : list event }.

(** Statements that read and update the frame, log, and may raise. *)
Definition M (A : Type) : Type := state -> result A * state.

#[global] Instance M_ret : MRet M := fun A a st => (Ok a, st).

#[global] Instance M_bind : MBind M := fun A B k m st =>
  match m st with
  | (Ok a, st') => k a st'
  | (Raise e, st') => (Raise e, st')
  end.

Definition raise {A} (e : exn) : M A := fun st => (Raise e, st).

Definition lift {A} (r : result A) : M A := fun st => (r, st).

(** [try: body / except: handler] (a bare [except] catches everything). *)
Definition try_except {A} (body : M A) (handler : exn -> M A) : M A := fun st =>
  match body st with
  | (Raise e, st') => handler e st'
  | r => r
  end.

(** [try: body / except ValueError as e: handler] *)
Definition try_except_ValueError {A} (body : M A) (handler : string -> M A) : M A :=
  try_except body (fun e =>
    match e with
    | ValueError msg => handler msg
    | _ => raise e
    end).

Definition logging (lvl : level) (msg : string) : M unit := fun st =>
  (Ok tt, mk_state (st_frame st) (st_trace st ++ [EvLog lvl msg])).

Definition get_columns : M (list string) := fun st => (Ok (columns (st_frame st)), st).

Definition df_get (col : string) : M series := fun st =>
  match getitem col (st_frame st) with
  | Some s => (Ok s, st)
  | None => (Raise (OtherException "KeyError" col), st)
  end.

Definition df_set (col : string) (s : series) : M unit := fun st =>
  (Ok tt, mk_state (setitem col s (st_frame st)) (st_trace st)).

(** [for x in xs: body] *)
Fixpoint for_each {A} (xs : list A) (body : A -> M unit) : M unit :=
  match xs with
  | [] => mret tt
  | x :: rest => body x ;; for_each rest body
  end.

(** ** [generalize_data_type] (lines 27-106) *)

Section Generalize.

Context (py : runtime).

(** Lines 39-55: parse, and on [ValueError] log it and raise it again. *)
Definition parse_and_log (type_map_str : string) : M (gmap string string) :=
  try_except_ValueError (lift (parse_type_map type_map_str)) (fun msg =>
    logging ERROR ("Error parsing type map: " +:+ msg) ;;
    raise (ValueError msg)).

(** Lines 58-78: the label of the column; an [object] column is replaced
    by its text rendering on the way. *)
Definition infer_col_type_name (col : string) : M string :=
  s ← df_get col;
  let col_type := Pandas.dtype_of s in
  if Pandas.dtype_is_object col_type then
    try_except
      (s ← df_get col;
       s' ← lift (Pandas.astype py ty_str s);
       df_set col s' ;;
       mret "str")
      (fun _ => mret "object")
  else
    s ← df_get col;
    if Pandas.is_integer_dtype s then mret "int"
    else if Pandas.is_float_dtype s then mret "float"
    else if Pandas.is_bool_dtype s then mret "bool"
    else mret "object".

(** [df[col] = df[col].astype(t)] *)
Definition astype_in_place (col : string) (t : pytype) : M unit :=
  s ← df_get col;
  s' ← lift (Pandas.astype py t s);
  df_set col s'.

(** Lines 84-96. *)
Definition convert (col new_type : string) : M unit :=
  if String.eqb new_type "float" then astype_in_place col ty_float
  else if String.eqb new_type "str" then astype_in_place col ty_str
  else if String.eqb new_type "int" then astype_in_place col ty_int
  else if String.eqb new_type "bool" then astype_in_place col ty_bool
  else if String.eqb new_type "object" then mret tt
  else
    logging ERROR ("Invalid new type specified for conversion: " +:+ new_type) ;;
    raise (ValueError ("Invalid new type: " +:+ new_type)).

Definition failed_msg (col col_type_name new_type msg : string) : string :=
  "Failed to convert column '" +:+ col +:+ "' from " +:+ col_type_name
    +:+ " to " +:+ new_type +:+ ": " +:+ msg.

Definition converted_msg (col col_type_name new_type : string) : string :=
  "Converted column '" +:+ col +:+ "' from " +:+ col_type_name
    +:+ " to " +:+ new_type.

(** The body of the loop over the columns, lines 58-103. *)
Definition generalize_column (type_map : gmap string string) (col : string) : M unit :=
  col_type_name ← infer_col_type_name col;
  match type_map !! col_type_name with
  | Some new_type =>
      try_except_ValueError
        (convert col new_type ;;
         logging INFO (converted_msg col col_type_name new_type))
        (fun msg =>
           logging ERROR (failed_msg col col_type_name new_type msg) ;;
           raise (ValueError (failed_msg col col_type_name new_type msg)))
  | None => mret tt
  end.

Definition generalize_data_type (type_map_str : string) : M unit :=
  type_map ← parse_and_log type_map_str;
  cols ← get_columns;
  for_each cols (generalize_column type_map).

(** ** [main] (lines 109-146), after the arguments are parsed *)

(** The file system as the run finds it. *)
Record world := {
  path_exists : string -> bool;
  read_csv : string -> result frame;
  to_csv : string -> frame -> result unit
}.

Definition emit (ev : event) : M unit := fun st =>
  (Ok tt, mk_state (st_frame st) (st_trace st ++ [ev])).

Definition set_frame (df : frame) : M unit := fun st =>
  (Ok tt, mk_state df (st_trace st)).

Definition get_frame : M frame := fun st => (Ok (st_frame st), st).

(** Lines 125-135, the body of the [try]. *)
Definition main_body (w : world) (input_file output_file type_map_str : string) : M unit :=
  emit (EvReadCsv input_file) ;;
  df ← lift (read_csv w input_file);
  set_frame df ;;
  generalize_data_type type_map_str ;;
  df ← get_frame;
  emit (EvToCsv output_file df) ;;
  lift (to_csv w output_file df) ;;
  logging INFO ("Successfully generalized data types and saved to " +:+ output_file).

(** The handlers of lines 137-146: each logs and exits with code 1. *)
Definition main_handlers (input_file : string) (e : exn) : M Z :=
  match e with
  | FileNotFoundError _ =>
      logging ERROR ("File not found: " +:+ input_file) ;; mret 1
  | ValueError msg =>
      logging ERROR ("ValueError: " +:+ msg) ;; mret 1
  | OtherException _ msg =>
      logging ERROR ("An unexpected error occurred: " +:+ msg) ;;
      logging ERROR msg ;;
      mret 1
  end.

(** The exit code of the process and the trace of the run. *)
Definition main (w : world) (input_file output_file type_map_str : string)
  : Z * list event :=
  let run : M Z :=
    emit (EvPathExists input_file) ;;
    if negb (path_exists w input_file) then
      logging ERROR ("Input file not found: " +:+ input_file) ;; mret 1
    else
      try_except
        (main_body w input_file output_file type_map_str ;; mret 0)
        (main_handlers input_file) in
  match run (mk_state [] []) with
  | (Ok code, st) => (code, st_trace st)
  | (Raise _, st) => (1, st_trace st)
  end.

End Generalize.

(** ** One column at a time: the loop body as a function of the column *)

(** The column and its label after lines 58-78. *)
Definition infer (py : runtime) (s : series) : series * string :=
  match Pandas.dtype_of s with
  | dt_object =>
      match Pandas.astype py ty_str s with
      | Ok s' => (s', "str")
      | Raise _ => (s, "object")
      end
  | dt_int64 => (s, "int")
  | dt_float64 => (s, "float")
  | dt_bool => (s, "bool")
  | dt_other _ kind_integer => (s, "int")
  | dt_other _ kind_floating => (s, "float")
  | dt_other _ kind_boolean => (s, "bool")
  | dt_other _ kind_other => (s, "object")
  end.

(** Lines 84-96 on the column: the new column or the exception, and the
    record logged by the defensive branch. *)
Definition cast (py : runtime) (new_type : string) (s : series)
  : result series * list event :=
  if String.eqb new_type "float" then (Pandas.astype py ty_float s, [])
  else if String.eqb new_type "str" then (Pandas.astype py ty_str s, [])
  else if String.eqb new_type "int" then (Pandas.astype py ty_int s, [])
  else if String.eqb new_type "bool" then (Pandas.astype py ty_bool s, [])
  else if String.eqb new_type "object" then (Ok s, [])
  else (Raise (ValueError ("Invalid new type: " +:+ new_type)),
        [EvLog ERROR ("Invalid new type specified for conversion: " +:+ new_type)]).

(** One pass over a column: its label is inferred once, from the column as
    it enters the pass, and the target found under that label, if any, is
    applied once.  Gives the outcome, the column left in the frame and the
    records logged. *)
Definition column_pass (py : runtime) (type_map : gmap string string)
    (col : string) (s : series) : result unit * series * list event :=
  let '(s1, col_type_name) := infer py s in
  match type_map !! col_type_name with
  | None => (Ok tt, s1, [])
  | Some new_type =>
      match cast py new_type s1 with
      | (Ok s2, evs) =>
          (Ok tt, s2, evs ++ [EvLog INFO (converted_msg col col_type_name new_type)])
      | (Raise (ValueError msg), evs) =>
          (Raise (ValueError (failed_msg col col_type_name new_type msg)), s1,
           evs ++ [EvLog ERROR (failed_msg col col_type_name new_type msg)])
      | (Raise e, evs) => (Raise e, s1, evs)
      end
  end.

(** The columns in order, each given one pass, up to the first that fails;
    the columns after it are returned as they are. *)
Fixpoint frame_pass (py : runtime) (type_map : gmap string string) (df : frame)
  : result unit * frame * list event :=
  match df with
  | [] => (Ok tt, [], [])
  | (col, s) :: rest =>
      match column_pass py type_map col s with
      | (Ok _, s', evs) =>
          let '(r, rest', evs') := frame_pass py type_map rest in
          (r, (col, s') :: rest', evs ++ evs')
      | (Raise e, s', evs) => (Raise e, (col, s') :: rest, evs)
      end
  end.

(** ** Vocabulary of the statements *)

(** A token as the parser compares it: trimmed and lower-cased. *)
Definition normalize (token : string) : string := PyStr.lower (PyStr.strip token).

(** A segment splits on the colon into exactly two tokens. *)
Definition two_tokens (segment : string) : option (string * string) :=
  match PyStr.split ":"%char segment with
  | [a; b] => Some (a, b)
  | _ => None
  end.

(** A segment the parser accepts: two tokens, both in the vocabulary. *)
Definition valid_segment (segment : string) : Prop :=
  ∃ a b, two_tokens segment = Some (a, b)
         ∧ normalize a ∈ vocabulary ∧ normalize b ∈ vocabulary.

(** The pair old -> new a segment stands for, when it is accepted. *)
Definition segment_pair (segment : string) : option (string * string) :=
  match parse_conversion segment with
  | Ok p => Some p
  | Raise _ => None
  end.

Definition segments (type_map_str : string) : list string :=
  PyStr.split ","%char type_map_str.

(** The dictionary after the pairs are stored in order over [m0]: a later
    pair replaces an earlier one under the same key. *)
Fixpoint type_map_from (m0 : gmap string string) (pairs : list (string * string))
  : gmap string string :=
  match pairs with
  | [] => m0
  | (old_type, new_type) :: rest => type_map_from (<[old_type := new_type]> m0) rest
  end.

(** The mapping old -> new the accepted segments of a string stand for. *)
Definition type_map_of (segs : list string) : gmap string string :=
  type_map_from ∅ (omap segment_pair segs).

(** The source labels of the accepted segments, in order. *)
Definition source_labels (segs : list string) : list string :=
  omap (λ seg, fst <$> segment_pair seg) segs.

Definition is_to_csv (ev : event) : bool :=
  match ev with EvToCsv _ _ => true | _ => false end.

Definition is_read_csv (ev : event) : bool :=
  match ev with EvReadCsv _ => true | _ => false end.

(** The cells of a column as Python scalars. *)
Definition cells_of (s : series) : list pyval :=
  match s with
  | ObjectSeries cells | OtherSeries _ _ cells => cells
  | Int64Series cells => PyInt <$> cells
  | Float64Series cells => PyFloat <$> cells
  | BoolSeries cells => PyBool <$> cells
  end.



(** The error of a segment that does not unpack into two tokens (line 42). *)
Definition malformed_mapping_error (e : exn) : Prop :=
  e = ValueError "not enough values to unpack (expected 2, got 1)"
  ∨ e = ValueError "too many values to unpack (expected 2)".






(** No event of the trace is a write of the output file. *)
Definition no_write (evs : list event) : Prop :=
  Forall (λ ev, is_to_csv ev = false) evs.

(** The records a handler of [main] logs for an exception. *)
Definition handler_records (input_file : string) (e : exn) : list event :=
  match e with
  | FileNotFoundError _ => [EvLog ERROR ("File not found: " +:+ input_file)]
  | ValueError msg => [EvLog ERROR ("ValueError: " +:+ msg)]
  | OtherException _ msg =>
      [EvLog ERROR ("An unexpected error occurred: " +:+ msg); EvLog ERROR msg]
  end.

(** A rejected type map ends the run before any table I/O: the exit code is
    not zero and the trace holds neither the read of the input file nor a
    write of the output. *)
Definition rejected_before_table_io (py : runtime) (w : world)
    (input_file output_file type_map_str : string) : Prop :=
  is_ok (parse_type_map type_map_str) = false →
  (main py w input_file output_file type_map_str).1 ≠ 0
  ∧ Forall (λ ev, is_read_csv ev = false ∧ is_to_csv ev = false)
      (main py w input_file output_file type_map_str).2.

(** ** Vocabulary of the further properties *)

(** [c in s] for a character. *)
Fixpoint has_char (c : Ascii.ascii) (s : string) : bool :=
  match s with
  | EmptyString => false
  | String x s' => Ascii.eqb x c || has_char c s'
  end.

(** The number of rows of a column. *)
Definition rows (s : series) : nat := length (cells_of s).

(** The labels of a frame in order, each with the number of rows under it. *)
Definition shape (df : frame) : list (string * nat) :=
  (λ cs, (cs.1, rows cs.2)) <$> df.

(** A column of one of the four dtypes a CSV load gives. *)
Definition loaded_dtype (s : series) : bool :=
  match s with OtherSeries _ _ _ => false | _ => true end.

(** The storage dtype [astype] gives for a target label. *)
Definition target_dtype (new_type : string) : option dtype :=
  if String.eqb new_type "float" then Some dt_float64
  else if String.eqb new_type "str" then Some dt_object
  else if String.eqb new_type "int" then Some dt_int64
  else if String.eqb new_type "bool" then Some dt_bool
  else None.

(** The record of the defensive branch, line 95. *)
Definition defensive_record (ev : event) : Prop :=
  ∃ new_type,
    ev = EvLog ERROR ("Invalid new type specified for conversion: " +:+ new_type).


(** No character of the string is whitespace. *)
Fixpoint no_space (s : string) : bool :=
  match s with
  | EmptyString => true
  | String c s' => negb (PyStr.is_space c) && no_space s'
  end.

(** The number a string of decimal digits stands for, read after [acc]. *)
Fixpoint uint_value (d : Decimal.uint) (acc : Z) : Z :=
  match d with
  | Decimal.Nil => acc
  | Decimal.D0 d' => uint_value d' (acc * 10 + 0)
  | Decimal.D1 d' => uint_value d' (acc * 10 + 1)
  | Decimal.D2 d' => uint_value d' (acc * 10 + 2)
  | Decimal.D3 d' => uint_value d' (acc * 10 + 3)
  | Decimal.D4 d' => uint_value d' (acc * 10 + 4)
  | Decimal.D5 d' => uint_value d' (acc * 10 + 5)
  | Decimal.D6 d' => uint_value d' (acc * 10 + 6)
  | Decimal.D7 d' => uint_value d' (acc * 10 + 7)
  | Decimal.D8 d' => uint_value d' (acc * 10 + 8)
  | Decimal.D9 d' => uint_value d' (acc * 10 + 9)
  end.

(** [z] is the float [f] rounded toward zero: [z] has the sign of [f] and
    the magnitude of [f], which is [m * 2^e], lies between the magnitude of
    [z], included, and the next integer, excluded. *)
Definition is_truncation (f : spec_float) (z : Z) : Prop :=
  match f with
  | S754_zero _ => z = 0
  | S754_finite s m e =>
      (if s then z <= 0 else 0 <= z)
      ∧ Z.abs z * 2 ^ Z.max 0 (- e) <= Z.pos m * 2 ^ Z.max 0 e
      ∧ Z.pos m * 2 ^ Z.max 0 e < (Z.abs z + 1) * 2 ^ Z.max 0 (- e)
  | S754_infinity _ | S754_nan => False
  end.

(** The library fact the idempotence of ["int:float"] rests on for the
    integer dtypes other than int64: [astype(float)] returns a float64
    column for them. *)
Definition integers_cast_to_float (py : runtime) : Prop :=
  ∀ name cells, ∃ fs,
    astype_other py ty_float name kind_integer cells = Ok (Float64Series fs).

(** What a run with the map int -> float makes of a column: an int64
    column becomes the float64 column of the nearest floats, a column of
    another integer dtype what [astype(float)] returns for it, an object
    column its text (the inference step), any other column itself. *)
Definition int_to_float_column (py : runtime) (s : series) : series :=
  match s with
  | ObjectSeries cells => ObjectSeries ((λ v, PyStr (Pandas.py_str py v)) <$> cells)
  | Int64Series zs => Float64Series (Pandas.float_of_Z <$> zs)
  | OtherSeries name kind_integer cells =>
      match astype_other py ty_float name kind_integer cells with
      | Ok s' => s'
      | Raise _ => s
      end
  | _ => s
  end.

Definition int_to_float_frame (py : runtime) (df : frame) : frame :=
  (λ cs, (cs.1, int_to_float_column py cs.2)) <$> df.

(** The records of that run: one per column of an integer dtype. *)
Definition int_to_float_records (df : frame) : list event :=
  flat_map (λ cs : string * series,
              if Pandas.is_integer_dtype cs.2
              then [EvLog INFO (converted_msg cs.1 "int" "float")]
              else []) df.

(** ** Values for the examples *)

(** A runtime that prints no finite float, parses none and casts no column
    of another dtype: the frames of the examples need none of the three. *)
Definition bare_runtime : runtime := {|
  float_repr := λ _, "";
  float_of_str := λ _, None;
  astype_other := λ _ name _ _,
    Raise (OtherException "TypeError" ("cannot cast dtype " +:+ name))
|}.

(** The float a cell of an integer column stands for. *)
Definition cell_to_float (v : pyval) : spec_float :=
  match v with
  | PyInt z => Pandas.float_of_Z z
  | PyBool b => Pandas.float_of_bool b
  | PyFloat f => f
  | PyStr _ => S754_nan
  end.

(** [bare_runtime] with the cast to float of the integer dtypes other than
    int64, cell by cell. *)
Definition widening_runtime : runtime := {|
  float_repr := λ _, "";
  float_of_str := λ _, None;
  astype_other := λ t name kind cells,
    match t, kind with
    | ty_float, kind_integer => Ok (Float64Series (cell_to_float <$> cells))
    | _, _ => Raise (OtherException "TypeError" ("cannot cast dtype " +:+ name))
    end
|}.

Definition NaN : spec_float := S754_nan.

(** The float64 nearest to [m * 2^e]. *)
Definition float64 (m e : Z) : spec_float := binary_normalize 53 1024 m e false.

(** A file system with one input file that loads as [df]; writes succeed. *)
Definition one_file (path : string) (df : frame) : world := {|
  path_exists := λ p, String.eqb p path;
  read_csv := λ p,
    if String.eqb p path then Ok df
    else Raise (FileNotFoundError p);
  to_csv := λ _ _, Ok tt
|}.

(** ** Frames *)

Lemma getitem_app_fresh col s (pre post : frame) :
  col ∉ columns pre → getitem col (pre ++ (col, s) :: post) = Some s.
Proof.
  induction pre as [|[name s0] pre IH]; simpl; intros Hfresh.
  - by rewrite String.eqb_refl.
  - apply not_elem_of_cons in Hfresh as [Hne Hfresh].
    destruct (String.eqb_spec name col) as [->|_]; [done|]. by apply IH.
Qed.

Lemma setitem_app_fresh col s s' (pre post : frame) :
  col ∉ columns pre →
  setitem col s' (pre ++ (col, s) :: post) = pre ++ (col, s') :: post.
Proof.
  induction pre as [|[name s0] pre IH]; simpl; intros Hfresh.
  - by rewrite String.eqb_refl.
  - apply not_elem_of_cons in Hfresh as [Hne Hfresh].
    destruct (String.eqb_spec name col) as [->|_]; [done|]. by rewrite IH.
Qed.

Lemma getitem_setitem col s (df : frame) : getitem col (setitem col s df) = Some s.
Proof.
  induction df as [|[name s0] df IH]; simpl.
  - by rewrite String.eqb_refl.
  - destruct (String.eqb_spec name col) as [->|Hne]; simpl.
    + by rewrite String.eqb_refl.
    + by destruct (String.eqb_spec name col).
Qed.

Lemma setitem_setitem col s1 s2 (df : frame) :
  setitem col s2 (setitem col s1 df) = setitem col s2 df.
Proof.
  induction df as [|[name s0] df IH]; simpl.
  - by rewrite String.eqb_refl.
  - destruct (String.eqb_spec name col) as [->|Hne]; simpl.
    + by rewrite String.eqb_refl.
    + destruct (String.eqb_spec name col); [done|]. by rewrite IH.
Qed.

Lemma setitem_getitem col s (df : frame) :
  getitem col df = Some s → setitem col s df = df.
Proof.
  induction df as [|[name s0] df IH]; simpl; [done|].
  destruct (String.eqb_spec name col) as [->|Hne]; intros H.
  - by inversion H.
  - by rewrite IH.
Qed.

(** ** The loop body and the loop, column by column *)

Ltac unfold_M :=
  unfold mbind, M_bind, mret, M_ret, df_get, df_set, lift, raise, logging,
    try_except_ValueError, try_except, get_columns, emit, set_frame, get_frame;
  simpl.

Lemma infer_col_type_name_spec py col s df tr :
  getitem col df = Some s →
  infer_col_type_name py col (mk_state df tr)
  = (Ok (infer py s).2, mk_state (setitem col (infer py s).1 df) tr).
Proof.
  intros Hget. unfold infer_col_type_name, infer. unfold_M. rewrite Hget.
  destruct s as [cells|cells|cells|cells|name [] cells]; simpl;
    rewrite ?Hget; simpl; rewrite ?(setitem_getitem _ _ _ Hget); try done.
Qed.

Lemma astype_in_place_spec py col t s df tr :
  getitem col df = Some s →
  astype_in_place py col t (mk_state df tr)
  = match Pandas.astype py t s with
    | Ok s' => (Ok tt, mk_state (setitem col s' df) tr)
    | Raise e => (Raise e, mk_state df tr)
    end.
Proof.
  intros Hget. unfold astype_in_place, mbind, M_bind, df_get, df_set, lift.
  cbn [st_frame st_trace]. rewrite Hget.
  by destruct (Pandas.astype py t s).
Qed.

Lemma convert_spec py col new_type s df tr :
  getitem col df = Some s →
  convert py col new_type (mk_state df tr)
  = match cast py new_type s with
    | (Ok s', evs) => (Ok tt, mk_state (setitem col s' df) (tr ++ evs))
    | (Raise e, evs) => (Raise e, mk_state df (tr ++ evs))
    end.
Proof.
  intros Hget. unfold convert, cast.
  repeat (case_match;
          [rewrite (astype_in_place_spec _ _ _ _ _ _ Hget);
           rewrite app_nil_r; by destruct (Pandas.astype _ _ s)|]).
  case_match.
  - unfold mret, M_ret. by rewrite app_nil_r, (setitem_getitem _ _ _ Hget).
  - done.
Qed.

Lemma generalize_column_spec py type_map col s df tr :
  getitem col df = Some s →
  generalize_column py type_map col (mk_state df tr)
  = let '(r, s', evs) := column_pass py type_map col s in
    (r, mk_state (setitem col s' df) (tr ++ evs)).
Proof.
  intros Hget. unfold generalize_column, column_pass.
  unfold mbind at 1, M_bind at 1.
  rewrite (infer_col_type_name_spec _ _ _ _ _ Hget).
  destruct (infer py s) as [s1 name]; simpl.
  destruct (type_map !! name) as [new_type|]; simpl.
  - unfold try_except_ValueError, try_except, mbind, M_bind.
    rewrite (convert_spec py col new_type s1); [|apply getitem_setitem].
    destruct (cast py new_type s1) as [[s2|e] evs]; simpl.
    + unfold logging; simpl. by rewrite setitem_setitem, app_assoc.
    + destruct e; unfold logging, raise; simpl; rewrite ?app_assoc; done.
  - unfold mret, M_ret. by rewrite app_nil_r.
Qed.

Lemma for_each_columns_spec py type_map (rest pre post : frame) tr :
  NoDup (columns (pre ++ rest ++ post)) →
  for_each (columns rest) (generalize_column py type_map)
    (mk_state (pre ++ rest ++ post) tr)
  = let '(r, rest', evs) := frame_pass py type_map rest in
    (r, mk_state (pre ++ rest' ++ post) (tr ++ evs)).
Proof.
  revert pre tr. induction rest as [|[col s] rest IH]; intros pre tr Hnd; simpl.
  - unfold mret, M_ret. by rewrite (app_nil_r tr).
  - assert (Hfresh : col ∉ columns pre).
    { unfold columns in *. rewrite fmap_app in Hnd. simpl in Hnd.
      apply NoDup_app in Hnd as (_ & Hdisj & _).
      intros Hin. apply (Hdisj _ Hin). left. }
    unfold mbind, M_bind.
    rewrite (generalize_column_spec py type_map col s);
      [|by apply getitem_app_fresh].
    destruct (column_pass py type_map col s) as [[[[]|e] s'] evs]; simpl;
      rewrite setitem_app_fresh by done; [|done].
    specialize (IH (pre ++ [(col, s')]) (tr ++ evs)).
    rewrite <- !app_assoc in IH. simpl in IH. rewrite IH.
    + destruct (frame_pass py type_map rest) as [[r rest'] evs'].
      by rewrite <- !app_assoc.
    + unfold columns in *. rewrite !fmap_app in *. simpl in *.
      by rewrite fmap_app.
Qed.

Lemma generalize_data_type_spec py type_map_str type_map df tr :
  wf_frame df →
  parse_type_map type_map_str = Ok type_map →
  generalize_data_type py type_map_str (mk_state df tr)
  = let '(r, df', evs) := frame_pass py type_map df in
    (r, mk_state df' (tr ++ evs)).
Proof.
  intros Hwf Hparse. unfold generalize_data_type, parse_and_log.
  unfold_M. rewrite Hparse. simpl.
  pose proof (for_each_columns_spec py type_map df [] [] tr) as Hloop.
  rewrite app_nil_r in Hloop. simpl in Hloop. rewrite (Hloop Hwf).
  destruct (frame_pass py type_map df) as [[r df'] evs]. by rewrite app_nil_r.
Qed.

(** ** The parser, segment by segment *)

Lemma mem_true x l : PyStr.mem x l = true ↔ x ∈ l.
Proof. unfold PyStr.mem. apply bool_decide_eq_true. Qed.

Lemma mem_false x l : PyStr.mem x l = false ↔ x ∉ l.
Proof. unfold PyStr.mem. apply bool_decide_eq_false. Qed.

Lemma parse_conversion_Ok seg k v :
  parse_conversion seg = Ok (k, v) ↔
  ∃ a b, two_tokens seg = Some (a, b) ∧ k = normalize a ∧ v = normalize b
         ∧ k ∈ vocabulary ∧ v ∈ vocabulary.
Proof.
  unfold parse_conversion, two_tokens, normalize.
  destruct (PyStr.split ":"%char seg) as [|a [|b [|c l]]]; simpl;
    try (split; [done | by intros (? & ? & ? & _)]).
  destruct (PyStr.mem (PyStr.lower (PyStr.strip a)) vocabulary) eqn:Ha; simpl;
    [destruct (PyStr.mem (PyStr.lower (PyStr.strip b)) vocabulary) eqn:Hb; simpl|].
  - apply mem_true in Ha, Hb. split.
    + intros [= <- <-]. by exists a, b.
    + by intros (? & ? & [= <- <-] & -> & -> & _).
  - apply mem_false in Hb. split; [done|].
    by intros (? & ? & [= <- <-] & -> & -> & _ & ?).
  - apply mem_false in Ha. split; [done|].
    by intros (? & ? & [= <- <-] & -> & -> & ? & _).
Qed.

Lemma valid_segment_pair seg : valid_segment seg ↔ is_Some (segment_pair seg).
Proof.
  unfold valid_segment, segment_pair. split.
  - intros (a & b & Htok & Ha & Hb).
    assert (parse_conversion seg = Ok (normalize a, normalize b)) as ->; [|by eexists].
    apply parse_conversion_Ok. by exists a, b.
  - intros [[k v] Hp]. destruct (parse_conversion seg) as [p|] eqn:Hpc; [|done].
    injection Hp as ->. apply parse_conversion_Ok in Hpc as (a & b & ? & -> & -> & ? & ?).
    by exists a, b.
Qed.

Lemma parse_conversions_app pre post (m0 : gmap string string) :
  Forall valid_segment pre →
  parse_conversions (pre ++ post) m0
  = parse_conversions post (type_map_from m0 (omap segment_pair pre)).
Proof.
  revert m0. induction pre as [|seg pre IH]; intros m0 Hvalid; [done|].
  apply Forall_cons in Hvalid as [Hseg Hpre]. simpl.
  apply valid_segment_pair in Hseg as [[k v] Hp]. rewrite Hp.
  unfold segment_pair in Hp. destruct (parse_conversion seg) as [p|]; [|done].
  injection Hp as ->. simpl. by apply IH.
Qed.

Lemma parse_conversions_valid segs (m0 : gmap string string) :
  Forall valid_segment segs →
  parse_conversions segs m0 = Ok (type_map_from m0 (omap segment_pair segs)).
Proof.
  intros Hvalid. rewrite <- (app_nil_r segs) at 1.
  by rewrite parse_conversions_app.
Qed.


Lemma parse_conversions_Ok_valid segs (m0 m : gmap string string) :
  parse_conversions segs m0 = Ok m → Forall valid_segment segs.
Proof.
  revert m0. induction segs as [|seg segs IH]; intros m0 Hok; [done|].
  simpl in Hok. destruct (parse_conversion seg) as [[k v]|] eqn:Hp; [|done].
  constructor; [|by eapply IH].
  apply valid_segment_pair. unfold segment_pair. by rewrite Hp.
Qed.

Lemma type_map_from_fresh (pairs : list (string * string)) (m0 : gmap string string) k :
  k ∉ pairs.*1 → type_map_from m0 pairs !! k = m0 !! k.
Proof.
  revert m0. induction pairs as [|[k' v'] pairs IH]; intros m0 Hfresh; [done|].
  simpl in *. apply not_elem_of_cons in Hfresh as [Hne Hfresh].
  rewrite IH by done. by rewrite lookup_insert_ne.
Qed.

Lemma type_map_from_perm (pairs pairs' : list (string * string)) (m0 : gmap string string) :
  pairs ≡ₚ pairs' → NoDup pairs.*1 →
  type_map_from m0 pairs = type_map_from m0 pairs'.
Proof.
  intros Hperm. revert m0.
  induction Hperm as [|[k v] l l' Hperm IH|[k1 v1] [k2 v2] l|l l' l'' H1 IH1 H2 IH2];
    intros m0 Hnd; simpl in *.
  - done.
  - apply NoDup_cons in Hnd as [_ Hnd]. by apply IH.
  - apply NoDup_cons in Hnd as [Hne _]. apply not_elem_of_cons in Hne as [Hne _].
    by rewrite insert_insert_ne.
  - rewrite IH1 by done. apply IH2. by rewrite <- H1.
Qed.

Lemma source_labels_pairs segs : source_labels segs = (omap segment_pair segs).*1.
Proof.
  unfold source_labels. induction segs as [|seg segs IH]; [done|]. csimpl.
  destruct (segment_pair seg) as [[k v]|]; csimpl; by rewrite IH.
Qed.

Lemma split_nonempty sep s : PyStr.split sep s ≠ [].
Proof.
  destruct s as [|c s]; simpl; [done|].
  destruct (Ascii.eqb c sep); [done|]. by destruct (PyStr.split sep s).
Qed.




(** ** The claims about the parser *)




(** C7.  When the parser accepts a string, it accepts every string whose
    segments are a permutation of the first one's and, if the source labels
    are pairwise distinct, gives the same mapping; and a source label is
    mapped to the target of its last segment. *)
Theorem C7_segment_order (s : string) (m : gmap string string) :
  parse_type_map s = Ok m →
  (∀ s', segments s ≡ₚ segments s' → NoDup (source_labels (segments s)) →
         parse_type_map s' = Ok m)
  ∧ (∀ pre seg post k v,
       segments s = pre ++ seg :: post → segment_pair seg = Some (k, v) →
       k ∉ source_labels post → m !! k = Some v).
Proof.
  unfold parse_type_map. fold (segments s). intros Hok.
  pose proof (parse_conversions_Ok_valid _ _ _ Hok) as Hvalid.
  rewrite parse_conversions_valid in Hok by done. injection Hok as <-. split.
  - intros s' Hperm Hnd. fold (segments s').
    rewrite parse_conversions_valid by (by rewrite <- Hperm).
    f_equal. symmetry. apply type_map_from_perm.
    + by apply omap_Permutation.
    + by rewrite <- source_labels_pairs.
  - intros pre seg post k v Hsegs Hpair Hlast. rewrite Hsegs.
    rewrite omap_app. csimpl. rewrite Hpair. csimpl.
    clear Hsegs Hvalid. generalize (∅ : gmap string string).
    induction (omap segment_pair pre) as [|[k' v'] l IH]; intros m0; simpl.
    + rewrite type_map_from_fresh by (by rewrite <- source_labels_pairs).
      apply lookup_insert_eq.
    + apply IH.
Qed.

Lemma C7_segment_order_witness :
  parse_type_map "bool:str,int:float" = parse_type_map "int:float,bool:str"
  ∧ type_map_of (segments "int:float,bool:str,int:str") !! "int" = Some "str".
Proof.
  assert (Hok1 : parse_type_map "int:float,bool:str"
                 = Ok (type_map_of (segments "int:float,bool:str")))
    by (by vm_compute).
  assert (Hok2 : parse_type_map "int:float,bool:str,int:str"
                 = Ok (type_map_of (segments "int:float,bool:str,int:str")))
    by (by vm_compute).
  split.
  - rewrite Hok1.
    apply (proj1 (C7_segment_order "int:float,bool:str" _ Hok1)).
    + apply Permutation_swap.
    + apply (bool_decide_unpack _). by vm_compute.
  - apply (proj2 (C7_segment_order "int:float,bool:str,int:str" _ Hok2)
             ["int:float"; "bool:str"] "int:str" []); try reflexivity.
    apply not_elem_of_nil.
Defined.

(** C9.  On the empty string the parser raises the malformed-mapping
    error: the one empty segment does not split into two tokens.
    [generalize_data_type] logs that error and raises it again, whatever
    the frame, and leaves the frame as it was. *)
Theorem C9_empty_type_map (py : runtime) (st : state) :
  parse_type_map "" = Raise (ValueError "not enough values to unpack (expected 2, got 1)")
  ∧ malformed_mapping_error (ValueError "not enough values to unpack (expected 2, got 1)")
  ∧ generalize_data_type py "" st
    = (Raise (ValueError "not enough values to unpack (expected 2, got 1)"),
       mk_state (st_frame st)
         (st_trace st ++ [EvLog ERROR
            "Error parsing type map: not enough values to unpack (expected 2, got 1)"])).
Proof. split; [done|]. split; [by left|done]. Qed.

(** ** The claims about type inference and the casts *)



(** A column of another dtype whose label is not a key of the map comes
    out of the pass as it went in. *)
Lemma column_pass_typed_unmapped py type_map col s :
  Pandas.dtype_of s ≠ dt_object → type_map !! (infer py s).2 = None →
  column_pass py type_map col s = (Ok tt, s, []).
Proof.
  intros Hdt Hnone. unfold column_pass.
  destruct (infer py s) as [s1 name] eqn:Hinf. simpl in Hnone. rewrite Hnone.
  unfold infer in Hinf. by destruct s as [| | | |? [] ?]; simplify_eq/=.
Qed.

(** C1, on the input where the code departs from it.  With the map
    ["int:float"] the label of column [a], "str", is not a key of the map,
    yet the run returns [a] with the missing cell NaN replaced by the text
    ["nan"]. *)
Theorem C1_unmapped_object_column_rewritten (py : runtime) :
  (∃ type_map, parse_type_map "int:float" = Ok type_map
     ∧ type_map !! (infer py (ObjectSeries [PyStr "foo"; PyFloat NaN])).2 = None)
  ∧ generalize_data_type py "int:float"
      (mk_state [("a", ObjectSeries [PyStr "foo"; PyFloat NaN]);
                 ("b", Int64Series [1; 2])] [])
    = (Ok tt,
       mk_state [("a", ObjectSeries [PyStr "foo"; PyStr "nan"]);
                 ("b", Float64Series [float64 1 0; float64 2 0])]
         [EvLog INFO "Converted column 'b' from int to float"]).
Proof.
  split.
  - eexists. split; [reflexivity|]. by vm_compute.
  - by vm_compute.
Qed.




Lemma infer_object py cells :
  infer py (ObjectSeries cells)
  = (ObjectSeries ((λ v, PyStr (Pandas.py_str py v)) <$> cells), "str").
Proof. done. Qed.

Lemma astype_int_object py cells :
  Pandas.astype py ty_int (ObjectSeries cells)
  = rbind (mapR Pandas.py_int cells) (λ zs, Ok (Int64Series zs)).
Proof. done. Qed.

(** The integer part keeps the sign and rounds the magnitude down. *)
Lemma trunc_toward_zero s m e :
  Pandas.trunc (S754_finite s m e)
  = cond_Zopp s (if (0 <=? e)%Z then Z.pos m * 2 ^ e else Z.pos m / 2 ^ (- e)).
Proof.
  unfold Pandas.trunc. f_equal. destruct (Z.leb_spec 0 e).
  - by apply Z.shiftl_mul_pow2.
  - apply Z.shiftl_div_pow2. lia.
Qed.



Lemma trunc_is_truncation f :
  Pandas.is_finite f = true → is_truncation f (Pandas.trunc f).
Proof.
  destruct f as [s|s| |s m e]; try done. intros _. simpl.
  assert (Hpos : 0 <= Z.shiftl (Z.pos m) e) by (apply Z.shiftl_nonneg; lia).
  assert (Habs : Z.abs (cond_Zopp s (Z.shiftl (Z.pos m) e)) = Z.shiftl (Z.pos m) e)
    by (destruct s; simpl; lia).
  rewrite Habs. split; [destruct s; simpl; lia|].
  destruct (Z.leb_spec 0 e) as [He|He].
  - rewrite Z.shiftl_mul_pow2 by done.
    rewrite (Z.max_l 0 (- e)), (Z.max_r 0 e) by lia. simpl. lia.
  - rewrite Z.shiftl_div_pow2 by lia.
    rewrite (Z.max_r 0 (- e)), (Z.max_l 0 e) by lia.
    assert (Hd : 0 < 2 ^ (- e)) by (apply Z.pow_pos_nonneg; lia).
    pose proof (Z.mul_div_le (Z.pos m) (2 ^ (- e)) Hd).
    pose proof (Z.mul_succ_div_gt (Z.pos m) (2 ^ (- e)) Hd).
    simpl. lia.
Qed.

Lemma is_truncation_unique f z : is_truncation f z → z = Pandas.trunc f.
Proof.
  destruct f as [s|s| |s m e]; try done. intros (Hsign & Hlow & Hhigh).
  pose proof (trunc_is_truncation (S754_finite s m e) eq_refl) as (Hsign' & Hlow' & Hhigh').
  set (t := Pandas.trunc (S754_finite s m e)) in *.
  assert (Hd : 0 < 2 ^ Z.max 0 (- e)) by (apply Z.pow_pos_nonneg; lia).
  assert (Z.abs z = Z.abs t) by nia.
  destruct s; lia.
Qed.

(** Text that holds a character [int()] accepts nowhere (a letter, a dot,
    a separator FS..US, ...) is not an integer literal. *)
Lemma digits_rejects c s acc after_digit :
  has_char c s = true → Pandas.is_digit c = false → c ≠ "_"%char →
  Pandas.digits s acc after_digit = None.
Proof.
  intros Hin Hdigit Hunder. revert acc after_digit.
  induction s as [|x s IH]; intros acc after_digit; simpl in *; [done|].
  apply orb_true_iff in Hin as [Hx|Hs].
  - apply Ascii.eqb_eq in Hx as ->. rewrite Hdigit.
    by destruct (Ascii.eqb_spec c "_"%char).
  - destruct (Pandas.is_digit x); [by apply IH|].
    destruct (Ascii.eqb x "_"%char); [|done].
    destruct after_digit; [by apply IH|done].
Qed.

Lemma has_char_int_lstrip c s :
  Pandas.is_int_space c = false → has_char c s = true →
  has_char c (Pandas.int_lstrip s) = true.
Proof.
  intros Hc. induction s as [|x s IH]; simpl; [done|].
  destruct (Pandas.is_int_space x) eqn:Hx; simpl; [|done].
  intros [Hxc|Hs]%orb_true_iff; [|by apply IH].
  apply Ascii.eqb_eq in Hxc as ->. congruence.
Qed.

Lemma has_char_int_rstrip c s :
  Pandas.is_int_space c = false → has_char c s = true →
  has_char c (Pandas.int_rstrip s) = true.
Proof.
  intros Hc. induction s as [|x s IH]; simpl; [done|].
  intros [Hxc|Hs]%orb_true_iff.
  - apply Ascii.eqb_eq in Hxc as ->. rewrite Hc.
    destruct (Pandas.int_rstrip s); simpl; by rewrite Ascii.eqb_refl.
  - specialize (IH Hs). destruct (Pandas.int_rstrip s); [done|].
    simpl in *. rewrite IH. apply orb_true_r.
Qed.

Lemma int_of_str_rejects c s :
  has_char c s = true → Pandas.is_digit c = false →
  Pandas.is_int_space c = false →
  c ≠ "_"%char → c ≠ "-"%char → c ≠ "+"%char →
  Pandas.int_of_str s = None.
Proof.
  intros Hin Hdigit Hspace Hunder Hminus Hplus. unfold Pandas.int_of_str.
  pose proof (has_char_int_rstrip c _ Hspace (has_char_int_lstrip c s Hspace Hin)) as Hr.
  destruct (Pandas.int_rstrip (Pandas.int_lstrip s)) as [|x r]; [done|].
  assert (Hdig : ∀ acc b, Pandas.digits (String x r) acc b = None)
    by (intros; by apply (digits_rejects c)).
  assert (Hrest : x = "-"%char ∨ x = "+"%char →
                  ∀ acc b, Pandas.digits r acc b = None).
  { intros Hx acc b. apply (digits_rejects c); try done. simpl in Hr.
    apply orb_true_iff in Hr as [Hxc|Hr]; [|done].
    apply Ascii.eqb_eq in Hxc as <-. by destruct Hx. }
  destruct (Ascii.eqb_spec x "-"%char) as [->|Hxm].
  { by rewrite Hrest by (by left). }
  destruct (Ascii.eqb_spec x "+"%char) as [->|Hxp].
  { by rewrite Hrest by (by right). }
  clear Hrest. specialize (Hdig 0 false).
  destruct x as [[] [] [] [] [] [] [] []]; try done.
Qed.



(** ** The claims about a whole run of the loop *)

Lemma frame_pass_columns py type_map df r df' evs :
  frame_pass py type_map df = (r, df', evs) → columns df' = columns df.
Proof.
  revert r df' evs. induction df as [|[col s] df IH]; intros r df' evs; simpl.
  - by intros [= <- <- <-].
  - destruct (column_pass py type_map col s) as [[[[]|e] s'] evs1].
    + destruct (frame_pass py type_map df) as [[r2 df2] evs2].
      intros [= <- <- <-]. unfold columns in *. simpl. f_equal. by eapply IH.
    + by intros [= <- <- <-].
Qed.

(** A run that succeeds has given every column one pass. *)
Lemma frame_pass_Ok py type_map df df' evs :
  frame_pass py type_map df = (Ok tt, df', evs) →
  df' = (λ '(col, s), (col, (column_pass py type_map col s).1.2)) <$> df.
Proof.
  revert df' evs. induction df as [|[col s] df IH]; intros df' evs; simpl.
  - by intros [= <- <-].
  - destruct (column_pass py type_map col s) as [[[[]|e] s'] evs1]; [|done].
    destruct (frame_pass py type_map df) as [[r2 df2] evs2].
    intros [= -> <- <-]. simpl. f_equal. by eapply IH.
Qed.

(** A run stops at the first column whose pass fails. *)
Lemma frame_pass_first_failure py type_map pre pre' evs col s post e s' evs' :
  frame_pass py type_map pre = (Ok tt, pre', evs) →
  column_pass py type_map col s = (Raise e, s', evs') →
  frame_pass py type_map (pre ++ (col, s) :: post)
  = (Raise e, pre' ++ (col, s') :: post, evs ++ evs').
Proof.
  revert pre' evs. induction pre as [|[c0 s0] pre IH]; intros pre' evs; simpl.
  - intros [= <- <-] Hfail. by rewrite Hfail.
  - destruct (column_pass py type_map c0 s0) as [[[[]|e0] s0'] evs0]; [|done].
    destruct (frame_pass py type_map pre) as [[r1 pre1] evs1].
    intros [= -> <- <-] Hfail. rewrite (IH pre1 evs1 eq_refl Hfail).
    by rewrite app_assoc.
Qed.

Lemma parse_int_to_float :
  parse_type_map "int:float" = Ok {["int" := "float"]}.
Proof. by vm_compute. Qed.

(** The text of text is that text. *)
Lemma text_of_text py (cells : list pyval) :
  (λ v, PyStr (Pandas.py_str py v)) <$> ((λ v, PyStr (Pandas.py_str py v)) <$> cells)
  = (λ v, PyStr (Pandas.py_str py v)) <$> cells.
Proof. rewrite <- list_fmap_compose. by apply list_fmap_ext. Qed.

(** With the map int -> float, and a library that casts the integer
    dtypes to float, a pass over a column succeeds, leaves
    [int_to_float_column] of it and logs the one record of a column of an
    integer dtype; a second pass over that result changes and logs
    nothing. *)
Lemma column_pass_int_to_float py col s :
  integers_cast_to_float py →
  column_pass py {["int" := "float"]} col s
  = (Ok tt, int_to_float_column py s, int_to_float_records [(col, s)])
  ∧ column_pass py {["int" := "float"]} col (int_to_float_column py s)
    = (Ok tt, int_to_float_column py s, []).
Proof.
  intros Hlib. destruct s as [cells|zs|fs|bs|name [] cells]; try done.
  - split; [done|]. unfold column_pass. cbn [int_to_float_column].
    rewrite infer_object. by rewrite text_of_text.
  - destruct (Hlib name cells) as [fs Hfs].
    unfold column_pass, int_to_float_records, cast. simpl. by rewrite Hfs.
Qed.

Lemma frame_pass_int_to_float py df :
  integers_cast_to_float py →
  frame_pass py {["int" := "float"]} df
  = (Ok tt, int_to_float_frame py df, int_to_float_records df)
  ∧ frame_pass py {["int" := "float"]} (int_to_float_frame py df)
    = (Ok tt, int_to_float_frame py df, []).
Proof.
  intros Hlib. induction df as [|[col s] df [Hfirst Hsecond]]; [done|].
  destruct (column_pass_int_to_float py col s Hlib) as [H1 H2].
  unfold int_to_float_frame in *. cbn [fmap list_fmap fst snd frame_pass].
  rewrite H1. fold (list_fmap _ _ (λ cs : string * series,
                                     (cs.1, int_to_float_column py cs.2)) df).
  change (list_fmap _ _ ?f df) with (f <$> df).
  rewrite Hfirst, H2, Hsecond. split; [|done].
  unfold int_to_float_records. simpl. by rewrite app_nil_r.
Qed.

Lemma int_to_float_dtype py s :
  integers_cast_to_float py → Pandas.is_integer_dtype s = true →
  Pandas.dtype_of (int_to_float_column py s) = dt_float64.
Proof.
  intros Hlib. destruct s as [cells|zs|fs|bs|name [] cells]; try done.
  intros _. simpl. by destruct (Hlib name cells) as [fs ->].
Qed.

(** C8.  Take a frame with unique labels (and a library in which the
    integer dtypes cast to float64).  The run with ["int:float"] succeeds:
    it returns every int64 column as the float64 column of its values and
    every column of an integer dtype as a float64 column, logging one
    record for each, and returns the columns of the other non-object dtypes
    as they are.  A second run with ["int:float"] on the frame it returned
    succeeds too, returns the same frame and logs nothing. *)
Theorem C8_int_to_float_twice (py : runtime) (df : frame) (tr : list event) :
  wf_frame df → integers_cast_to_float py →
  generalize_data_type py "int:float" (mk_state df tr)
  = (Ok tt, mk_state (int_to_float_frame py df) (tr ++ int_to_float_records df))
  ∧ Forall (λ cs, Pandas.is_integer_dtype cs.2 = true →
                  Pandas.dtype_of (int_to_float_column py cs.2) = dt_float64) df
  ∧ ∀ tr', generalize_data_type py "int:float"
             (mk_state (int_to_float_frame py df) tr')
           = (Ok tt, mk_state (int_to_float_frame py df) tr').
Proof.
  intros Hwf Hlib.
  destruct (frame_pass_int_to_float py df Hlib) as [Hfirst Hsecond].
  split; [|split].
  - rewrite (generalize_data_type_spec py _ _ df tr Hwf parse_int_to_float).
    by rewrite Hfirst.
  - apply Forall_forall. intros cs _. by apply int_to_float_dtype.
  - intros tr'.
    rewrite (generalize_data_type_spec py "int:float" {["int" := "float"]}
               (int_to_float_frame py df) tr');
      [|unfold wf_frame; by rewrite (frame_pass_columns _ _ _ _ _ _ Hfirst)
       |apply parse_int_to_float].
    rewrite Hsecond. by rewrite app_nil_r.
Qed.

Lemma C8_int_to_float_twice_witness :
  generalize_data_type widening_runtime "int:float"
    (mk_state [("a", Int64Series [1; 3]);
               ("b", OtherSeries "uint64" kind_integer [PyInt (2 ^ 63)]);
               ("c", Float64Series [float64 5 (-1)])] [])
  = (Ok tt,
     mk_state [("a", Float64Series [float64 1 0; float64 3 0]);
               ("b", Float64Series [float64 1 63]);
               ("c", Float64Series [float64 5 (-1)])]
       [EvLog INFO "Converted column 'a' from int to float";
        EvLog INFO "Converted column 'b' from int to float"]).
Proof.
  destruct (C8_int_to_float_twice widening_runtime
              [("a", Int64Series [1; 3]);
               ("b", OtherSeries "uint64" kind_integer [PyInt (2 ^ 63)]);
               ("c", Float64Series [float64 5 (-1)])] []) as (Hrun & _ & _).
  - apply (bool_decide_unpack _). by vm_compute.
  - intros name cells. by eexists.
  - rewrite Hrun. by vm_compute.
Defined.

(** C10, on the input where the code departs from it.  The object column
    [False, NaN] is labelled "str"; one cast of it to bool, the target of
    the rule ["str:bool"], gives [False, True].  The run returns
    [True, True]: the column is cast twice, to text by the inference step
    and then to bool.  (The map is not applied transitively: with
    ["int:float,float:str"] an int column ends the run as float.) *)
Theorem C10_object_column_cast_twice (py : runtime) :
  generalize_data_type py "str:bool"
    (mk_state [("a", ObjectSeries [PyBool false; PyFloat NaN])] [])
  = (Ok tt, mk_state [("a", BoolSeries [true; true])]
              [EvLog INFO "Converted column 'a' from str to bool"])
  ∧ Pandas.astype py ty_bool (ObjectSeries [PyBool false; PyFloat NaN])
    = Ok (BoolSeries [false; true])
  ∧ generalize_data_type py "int:float,float:str"
      (mk_state [("x", Int64Series [1; 2])] [])
    = (Ok tt, mk_state [("x", Float64Series [float64 1 0; float64 2 0])]
                [EvLog INFO "Converted column 'x' from int to float"]).
Proof. repeat split; by vm_compute. Qed.

(** ** [main]: exit codes and the trace *)

Lemma main_handlers_spec input_file e st :
  main_handlers input_file e st
  = (Ok 1, mk_state (st_frame st) (st_trace st ++ handler_records input_file e)).
Proof.
  destruct e; unfold main_handlers; unfold_M; [done|done|].
  by rewrite <- app_assoc.
Qed.

Lemma handler_records_no_write input_file e :
  Forall (λ ev, is_to_csv ev = false) (handler_records input_file e).
Proof. destruct e; by repeat constructor. Qed.

(** A run that finds no input file. *)
Lemma main_missing_file py w input_file output_file type_map_str :
  path_exists w input_file = false →
  main py w input_file output_file type_map_str
  = (1, [EvPathExists input_file;
         EvLog ERROR ("Input file not found: " +:+ input_file)]).
Proof. intros Hex. unfold main. unfold_M. by rewrite Hex. Qed.

(** A run whose load of the table fails. *)
Lemma main_read_fails py w input_file output_file type_map_str e :
  path_exists w input_file = true → read_csv w input_file = Raise e →
  main py w input_file output_file type_map_str
  = (1, [EvPathExists input_file; EvReadCsv input_file]
          ++ handler_records input_file e).
Proof.
  intros Hex Hread. unfold main, main_body. unfold_M. rewrite Hex, Hread. simpl.
  by rewrite main_handlers_spec.
Qed.

(** A run whose call to [generalize_data_type] raises. *)
Lemma main_generalize_fails py w input_file output_file type_map_str df e st' :
  path_exists w input_file = true → read_csv w input_file = Ok df →
  generalize_data_type py type_map_str
    (mk_state df [EvPathExists input_file; EvReadCsv input_file]) = (Raise e, st') →
  main py w input_file output_file type_map_str
  = (1, st_trace st' ++ handler_records input_file e).
Proof.
  intros Hex Hread Hgen. unfold main, main_body. unfold_M. rewrite Hex, Hread. simpl.
  rewrite Hgen. by rewrite main_handlers_spec.
Qed.

Lemma column_pass_no_write py type_map col s :
  no_write (column_pass py type_map col s).2.
Proof.
  unfold column_pass, cast, no_write.
  destruct (infer py s) as [s1 name].
  destruct (type_map !! name) as [new_type|]; [|by constructor].
  repeat case_match; simplify_eq/=; by repeat constructor.
Qed.

Lemma generalize_column_no_write py type_map col st :
  ∃ evs, st_trace (generalize_column py type_map col st).2 = st_trace st ++ evs
         ∧ no_write evs.
Proof.
  destruct st as [df tr].
  destruct (getitem col df) as [s|] eqn:Hget.
  - rewrite (generalize_column_spec _ _ _ _ _ _ Hget).
    pose proof (column_pass_no_write py type_map col s) as Hlogs.
    destruct (column_pass py type_map col s) as [[r s'] evs]. by exists evs.
  - exists []. split; [|by constructor].
    unfold generalize_column, infer_col_type_name. unfold_M. rewrite Hget.
    simpl. by rewrite app_nil_r.
Qed.

Lemma for_each_no_write py type_map cols st :
  ∃ evs, st_trace (for_each cols (generalize_column py type_map) st).2
         = st_trace st ++ evs
         ∧ no_write evs.
Proof.
  revert st. induction cols as [|col cols IH]; intros st; simpl.
  - exists []. split; [by rewrite app_nil_r|by constructor].
  - unfold mbind, M_bind.
    destruct (generalize_column_no_write py type_map col st) as (evs1 & Htr1 & Hl1).
    destruct (generalize_column py type_map col st) as [[[]|e] st1]; simpl in *.
    + destruct (IH st1) as (evs2 & Htr2 & Hl2).
      exists (evs1 ++ evs2). rewrite Htr2, Htr1, app_assoc. split; [done|].
      by apply Forall_app.
    + by exists evs1.
Qed.

Lemma parse_raises_ValueError s e :
  parse_type_map s = Raise e → ∃ msg, e = ValueError msg.
Proof.
  unfold parse_type_map. generalize (∅ : gmap string string).
  induction (PyStr.split ","%char s) as [|seg segs IH]; intros m0; simpl; [done|].
  destruct (parse_conversion seg) as [[k v]|e'] eqn:Hp; simpl.
  - apply IH.
  - intros [= <-]. unfold parse_conversion in Hp.
    destruct (unpack2 (PyStr.split ":"%char seg)) as [[a b]|e''] eqn:Hu; simpl in Hp.
    + repeat case_match; simplify_eq; by eexists.
    + injection Hp as <-. unfold unpack2 in Hu.
      repeat case_match; simplify_eq; by eexists.
Qed.

(** A rejected type map: the error is logged and raised again; the frame is
    not touched. *)
Lemma generalize_rejected_map py type_map_str st :
  is_ok (parse_type_map type_map_str) = false →
  ∃ msg, parse_type_map type_map_str = Raise (ValueError msg)
         ∧ generalize_data_type py type_map_str st
           = (Raise (ValueError msg),
              mk_state (st_frame st)
                (st_trace st ++ [EvLog ERROR ("Error parsing type map: " +:+ msg)])).
Proof.
  intros Hbad. destruct (parse_type_map type_map_str) as [m|e] eqn:Hp; [done|].
  destruct (parse_raises_ValueError _ _ Hp) as [msg ->]. exists msg. split; [done|].
  unfold generalize_data_type, parse_and_log. unfold_M. by rewrite Hp.
Qed.

Lemma generalize_no_write py type_map_str st :
  ∃ evs, st_trace (generalize_data_type py type_map_str st).2 = st_trace st ++ evs
         ∧ no_write evs.
Proof.
  destruct (is_ok (parse_type_map type_map_str)) eqn:Hok.
  - destruct (parse_type_map type_map_str) as [m|] eqn:Hp; [|done].
    unfold generalize_data_type, parse_and_log. unfold_M. rewrite Hp. simpl.
    apply (for_each_no_write py m (columns (st_frame st)) st).
  - destruct (generalize_rejected_map py type_map_str st Hok) as (msg & _ & ->).
    eexists. split; [done|]. by repeat constructor.
Qed.

Lemma for_each_stops {A} (pre : list A) x post (body : A → M unit) st st1 e st2 :
  for_each pre body st = (Ok tt, st1) → body x st1 = (Raise e, st2) →
  for_each (pre ++ x :: post) body st = (Raise e, st2).
Proof.
  revert st. induction pre as [|y pre IH]; intros st; simpl.
  - unfold mret, M_ret, mbind, M_bind. intros [= ->] Hbody. by rewrite Hbody.
  - unfold mbind, M_bind. destruct (body y st) as [[[]|e0] st0]; [|done].
    intros Hpre Hbody. by apply IH.
Qed.

(** ** The claims about [main] *)

(** C2, as stated, fails.  With the malformed map ["int-float"] and an
    input file that exists, the trace of the run holds the read of the
    input file: the table is loaded before the type map is parsed. *)
Lemma C2_table_is_read_first :
  ¬ rejected_before_table_io bare_runtime
      (one_file "in.csv" [("a", Int64Series [1; 2])]) "in.csv" "out.csv" "int-float".
Proof.
  intros Hclaim. destruct Hclaim as [_ Hio]; [done|].
  vm_compute in Hio.
  apply Forall_cons in Hio as [_ Hio]. apply Forall_cons in Hio as [[Hread _] _].
  discriminate.
Qed.

(** C2, amended.  For every run in which the type-map string is rejected,
    the process exits with code 1 and nothing is written; the rejection
    leaves the frame as it was, no column is touched.  When the input file
    exists it has been read by then: the table is loaded before the type
    map is parsed. *)
Theorem C2_rejected_map_exits_without_output (py : runtime) (w : world)
    (input_file output_file type_map_str : string) :
  is_ok (parse_type_map type_map_str) = false →
  (main py w input_file output_file type_map_str).1 = 1
  ∧ no_write (main py w input_file output_file type_map_str).2
  ∧ (path_exists w input_file = true →
     EvReadCsv input_file ∈ (main py w input_file output_file type_map_str).2)
  ∧ (∀ st, is_ok (generalize_data_type py type_map_str st).1 = false
           ∧ st_frame (generalize_data_type py type_map_str st).2 = st_frame st).
Proof.
  intros Hbad. destruct (path_exists w input_file) eqn:Hex.
  - destruct (read_csv w input_file) as [df|e] eqn:Hread.
    + destruct (generalize_rejected_map py type_map_str
                  (mk_state df [EvPathExists input_file; EvReadCsv input_file]) Hbad)
        as (msg & _ & Hgen).
      rewrite (main_generalize_fails _ _ _ _ _ _ _ _ Hex Hread Hgen). simpl.
      split; [done|]. split; [by repeat constructor|]. split.
      * intros _. set_solver.
      * intros st. by destruct (generalize_rejected_map py type_map_str st Hbad)
          as (msg' & _ & ->).
    + rewrite (main_read_fails _ _ _ _ _ _ Hex Hread). simpl.
      split; [done|]. split.
      * repeat constructor. apply handler_records_no_write.
      * split; [intros _; set_solver|].
        intros st. by destruct (generalize_rejected_map py type_map_str st Hbad)
          as (msg' & _ & ->).
  - rewrite (main_missing_file _ _ _ _ _ Hex). simpl.
    split; [done|]. split; [by repeat constructor|]. split; [done|].
    intros st. by destruct (generalize_rejected_map py type_map_str st Hbad)
      as (msg' & _ & ->).
Qed.

Lemma C2_rejected_map_exits_without_output_witness :
  (main bare_runtime (one_file "in.csv" [("a", Int64Series [1; 2])])
     "in.csv" "out.csv" "int:number").1 = 1
  ∧ no_write (main bare_runtime (one_file "in.csv" [("a", Int64Series [1; 2])])
                "in.csv" "out.csv" "int:number").2.
Proof.
  destruct (C2_rejected_map_exits_without_output bare_runtime
              (one_file "in.csv" [("a", Int64Series [1; 2])])
              "in.csv" "out.csv" "int:number") as (Hexit & Hwrite & _).
  - reflexivity.
  - by split.
Defined.

(** C6.  Take a run that loads a table with unique labels and whose type
    map is accepted.  If the loop body succeeds on the columns before [col]
    and raises on [col], then [generalize_data_type] raises that exception
    in the state the loop body left: the columns after [col] are not
    visited and stand in the frame as they were loaded.  The process exits
    with code 1, the trace ends with the records of the handler, and it
    holds no write of the output file. *)
Theorem C6_failed_cast_stops_the_run (py : runtime) (w : world)
    (input_file output_file type_map_str : string) (type_map : gmap string string)
    (df pre post : frame) (col : string) (s : series) (st1 st2 : state) (e : exn) :
  path_exists w input_file = true → read_csv w input_file = Ok df →
  parse_type_map type_map_str = Ok type_map →
  wf_frame df → df = pre ++ (col, s) :: post →
  for_each (columns pre) (generalize_column py type_map)
    (mk_state df [EvPathExists input_file; EvReadCsv input_file]) = (Ok tt, st1) →
  generalize_column py type_map col st1 = (Raise e, st2) →
  generalize_data_type py type_map_str
    (mk_state df [EvPathExists input_file; EvReadCsv input_file]) = (Raise e, st2)
  ∧ (∃ pre' s', st_frame st2 = pre' ++ (col, s') :: post)
  ∧ main py w input_file output_file type_map_str
    = (1, st_trace st2 ++ handler_records input_file e)
  ∧ no_write (main py w input_file output_file type_map_str).2.
Proof.
  intros Hex Hread Hparse Hwf -> Hpre Hcol.
  set (tr := [EvPathExists input_file; EvReadCsv input_file]) in *.
  assert (Hgen : generalize_data_type py type_map_str
                   (mk_state (pre ++ (col, s) :: post) tr) = (Raise e, st2)).
  { unfold generalize_data_type, parse_and_log. unfold_M. rewrite Hparse. simpl.
    unfold columns. rewrite fmap_app. simpl.
    by apply (for_each_stops _ _ _ _ _ st1). }
  split; [done|]. split; [|split].
  - pose proof (for_each_columns_spec py type_map pre [] ((col, s) :: post) tr Hwf)
      as Hloop. simpl in Hloop. rewrite Hpre in Hloop.
    destruct (frame_pass py type_map pre) as [[r pre'] evs] eqn:Hpass.
    injection Hloop as <- ->.
    assert (Hfresh : col ∉ columns pre').
    { rewrite (frame_pass_columns _ _ _ _ _ _ Hpass).
      unfold wf_frame, columns in *. rewrite fmap_app in Hwf. simpl in Hwf.
      apply NoDup_app in Hwf as (_ & Hdisj & _).
      intros Hin. apply (Hdisj _ Hin). left. }
    rewrite (generalize_column_spec py type_map col s) in Hcol
      by (by apply getitem_app_fresh).
    destruct (column_pass py type_map col s) as [[r' s'] evs'].
    injection Hcol as -> <-. simpl.
    exists pre', s'. by apply setitem_app_fresh.
  - by apply (main_generalize_fails _ _ _ _ _ _ _ _ Hex Hread Hgen).
  - rewrite (main_generalize_fails _ _ _ _ _ _ _ _ Hex Hread Hgen). simpl.
    destruct (generalize_no_write py type_map_str
                (mk_state (pre ++ (col, s) :: post) tr)) as (evs & Htr & Hlogs).
    rewrite Hgen in Htr. cbn [snd st_trace] in Htr. rewrite Htr.
    apply Forall_app. split; [|apply handler_records_no_write].
    apply Forall_app. split; [by repeat constructor|done].
Qed.

Lemma C6_failed_cast_stops_the_run_witness :
  main bare_runtime
    (one_file "in.csv" [("a", Int64Series [1; 2]); ("b", ObjectSeries [PyStr "x"; PyStr "7"]);
                        ("c", Int64Series [5])])
    "in.csv" "out.csv" "int:float,str:int"
  = (1, [EvPathExists "in.csv"; EvReadCsv "in.csv";
         EvLog INFO "Converted column 'a' from int to float";
         EvLog ERROR "Failed to convert column 'b' from str to int: invalid literal for int() with base 10: 'x'";
         EvLog ERROR "ValueError: Failed to convert column 'b' from str to int: invalid literal for int() with base 10: 'x'"]).
Proof.
  destruct (C6_failed_cast_stops_the_run bare_runtime
               (one_file "in.csv" [("a", Int64Series [1; 2]);
                                   ("b", ObjectSeries [PyStr "x"; PyStr "7"]);
                                   ("c", Int64Series [5])])
               "in.csv" "out.csv" "int:float,str:int"
               (type_map_of (segments "int:float,str:int"))
               [("a", Int64Series [1; 2]); ("b", ObjectSeries [PyStr "x"; PyStr "7"]);
                ("c", Int64Series [5])]
               [("a", Int64Series [1; 2])] [("c", Int64Series [5])]
               "b" (ObjectSeries [PyStr "x"; PyStr "7"])
               (mk_state [("a", Float64Series [float64 1 0; float64 2 0]);
                          ("b", ObjectSeries [PyStr "x"; PyStr "7"]);
                          ("c", Int64Series [5])]
                  [EvPathExists "in.csv"; EvReadCsv "in.csv";
                   EvLog INFO "Converted column 'a' from int to float"])
               (mk_state [("a", Float64Series [float64 1 0; float64 2 0]);
                          ("b", ObjectSeries [PyStr "x"; PyStr "7"]);
                          ("c", Int64Series [5])]
                  [EvPathExists "in.csv"; EvReadCsv "in.csv";
                   EvLog INFO "Converted column 'a' from int to float";
                   EvLog ERROR "Failed to convert column 'b' from str to int: invalid literal for int() with base 10: 'x'"])
               (ValueError "Failed to convert column 'b' from str to int: invalid literal for int() with base 10: 'x'"))
    as (_ & _ & Hmain & _).
  - reflexivity.
  - reflexivity.
  - by vm_compute.
  - apply (bool_decide_unpack _). by vm_compute.
  - reflexivity.
  - by vm_compute.
  - by vm_compute.
  - rewrite Hmain. reflexivity.
Defined.

(** * Further properties *)

(** ** The parser on strings *)

Lemma split_app_sep sep s1 s2 :
  PyStr.split sep (s1 +:+ String sep s2) = PyStr.split sep s1 ++ PyStr.split sep s2.
Proof.
  induction s1 as [|c s1 IH]; simpl.
  - by rewrite Ascii.eqb_refl.
  - destruct (Ascii.eqb c sep); [by rewrite IH|]. rewrite IH.
    pose proof (split_nonempty sep s1) as Hne.
    by destruct (PyStr.split sep s1).
Qed.

Lemma split_no_sep sep s : has_char sep s = false → PyStr.split sep s = [s].
Proof.
  induction s as [|c s IH]; simpl; [done|].
  intros [Hc Hs]%orb_false_iff. rewrite Hc. by rewrite IH.
Qed.

Lemma has_char_app c s1 s2 :
  has_char c (s1 +:+ s2) = has_char c s1 || has_char c s2.
Proof.
  induction s1 as [|x s1 IH]; simpl; [done|]. by rewrite IH, orb_assoc.
Qed.

Lemma has_char_lower c s :
  PyStr.lower_char c = c → has_char c s = true → has_char c (PyStr.lower s) = true.
Proof.
  intros Hc. induction s as [|x s IH]; simpl; [done|].
  intros [Hx|Hs]%orb_true_iff.
  - apply Ascii.eqb_eq in Hx as ->. by rewrite Hc, Ascii.eqb_refl.
  - rewrite IH by done. apply orb_true_r.
Qed.

Lemma has_char_lstrip c s :
  PyStr.is_space c = false → has_char c s = true → has_char c (PyStr.lstrip s) = true.
Proof.
  intros Hc. induction s as [|x s IH]; simpl; [done|].
  destruct (PyStr.is_space x) eqn:Hx; simpl; [|done].
  intros [Hxc|Hs]%orb_true_iff; [|by apply IH].
  apply Ascii.eqb_eq in Hxc as ->. congruence.
Qed.

Lemma has_char_rstrip c s :
  PyStr.is_space c = false → has_char c s = true → has_char c (PyStr.rstrip s) = true.
Proof.
  intros Hc. induction s as [|x s IH]; simpl; [done|].
  intros [Hxc|Hs]%orb_true_iff.
  - apply Ascii.eqb_eq in Hxc as ->. rewrite Hc.
    destruct (PyStr.rstrip s); simpl; by rewrite Ascii.eqb_refl.
  - specialize (IH Hs). destruct (PyStr.rstrip s); [done|].
    simpl in *. rewrite IH. apply orb_true_r.
Qed.

Lemma has_char_normalize c token :
  PyStr.is_space c = false → PyStr.lower_char c = c →
  has_char c token = true → has_char c (normalize token) = true.
Proof.
  intros Hsp Hlow Hin. unfold normalize, PyStr.strip.
  by apply has_char_lower, has_char_rstrip, has_char_lstrip.
Qed.

(** A token the vocabulary accepts holds no colon and no comma. *)
Lemma vocabulary_token_plain token :
  normalize token ∈ vocabulary →
  has_char ":"%char token = false ∧ has_char ","%char token = false.
Proof.
  intros Hin. split.
  - destruct (has_char ":"%char token) eqn:Hc; [|done].
    apply (has_char_normalize ":"%char) in Hc; [|done..].
    unfold vocabulary in Hin.
    repeat (apply elem_of_cons in Hin as [Heq|Hin];
            [rewrite Heq in Hc; by vm_compute in Hc|]).
    by apply elem_of_nil in Hin.
  - destruct (has_char ","%char token) eqn:Hc; [|done].
    apply (has_char_normalize ","%char) in Hc; [|done..].
    unfold vocabulary in Hin.
    repeat (apply elem_of_cons in Hin as [Heq|Hin];
            [rewrite Heq in Hc; by vm_compute in Hc|]).
    by apply elem_of_nil in Hin.
Qed.

Lemma type_map_from_union (pairs : list (string * string)) (m0 : gmap string string) :
  type_map_from m0 pairs = type_map_from ∅ pairs ∪ m0.
Proof.
  revert m0. induction pairs as [|[k v] pairs IH]; intros m0; simpl.
  - by rewrite (left_id_L ∅ (∪)).
  - rewrite (IH (<[k:=v]> m0)), (IH (<[k:=v]> ∅)).
    rewrite insert_empty, <- (assoc_L (∪)). by rewrite <- insert_union_singleton_l.
Qed.

Lemma parse_conversions_from segs (m0 : gmap string string) :
  parse_conversions segs m0
  = rbind (parse_conversions segs ∅) (λ m, Ok (m ∪ m0)).
Proof.
  revert m0. induction segs as [|seg segs IH]; intros m0; simpl.
  - by rewrite (left_id_L ∅ (∪)).
  - destruct (parse_conversion seg) as [[k v]|e]; simpl; [|done].
    rewrite (IH (<[k:=v]> m0)), (IH (<[k:=v]> ∅)).
    destruct (parse_conversions segs ∅) as [m|e]; simpl; [|done].
    rewrite insert_empty, <- (assoc_L (∪)). by rewrite <- insert_union_singleton_l.
Qed.

Lemma parse_conversions_seq segs1 segs2 (m0 : gmap string string) :
  parse_conversions (segs1 ++ segs2) m0
  = rbind (parse_conversions segs1 m0) (parse_conversions segs2).
Proof.
  revert m0. induction segs1 as [|seg segs1 IH]; intros m0; simpl; [done|].
  destruct (parse_conversion seg) as [[k v]|e]; simpl; [|done]. apply IH.
Qed.

Lemma parse_type_map_comma s1 s2 :
  parse_type_map (s1 +:+ "," +:+ s2)
  = match parse_type_map s1 with
    | Raise e => Raise e
    | Ok m1 =>
        match parse_type_map s2 with
        | Raise e => Raise e
        | Ok m2 => Ok (m2 ∪ m1)
        end
    end.
Proof.
  unfold parse_type_map.
  change (s1 +:+ "," +:+ s2) with (s1 +:+ String ","%char s2).
  rewrite split_app_sep, parse_conversions_seq.
  destruct (parse_conversions (PyStr.split ","%char s1) ∅) as [m1|e]; simpl; [|done].
  rewrite parse_conversions_from.
  by destruct (parse_conversions (PyStr.split ","%char s2) ∅).
Qed.

(** X1.  Parsing composes over the comma: the string [s1,s2] is rejected
    with the error of [s1] when [s1] is rejected, else with the error of
    [s2] when [s2] is; otherwise its mapping is that of [s2] completed by
    that of [s1], the entries of [s2] taking precedence. *)
Theorem X1_parse_composes (s1 s2 : string) :
  parse_type_map (s1 +:+ "," +:+ s2)
  = match parse_type_map s1 with
    | Raise e => Raise e
    | Ok m1 =>
        match parse_type_map s2 with
        | Raise e => Raise e
        | Ok m2 => Ok (m2 ∪ m1)
        end
    end.
Proof. apply parse_type_map_comma. Qed.

(** X2.  An empty segment rejects the whole string: a type map that ends
    with a comma, starts with one, or holds two in a row is never
    accepted. *)
Theorem X2_empty_segment_rejected (s1 s2 : string) :
  is_ok (parse_type_map (s1 +:+ ",")) = false
  ∧ is_ok (parse_type_map ("," +:+ s2)) = false
  ∧ is_ok (parse_type_map (s1 +:+ ",," +:+ s2)) = false.
Proof.
  split; [|split].
  - change (s1 +:+ ",") with (s1 +:+ "," +:+ ""). rewrite parse_type_map_comma.
    by destruct (parse_type_map s1).
  - change ("," +:+ s2) with ("" +:+ "," +:+ s2). by rewrite parse_type_map_comma.
  - change (s1 +:+ ",," +:+ s2) with (s1 +:+ "," +:+ ("" +:+ "," +:+ s2)).
    rewrite parse_type_map_comma. destruct (parse_type_map s1); [|done].
    by rewrite parse_type_map_comma.
Qed.

Lemma type_map_from_lookup (pairs : list (string * string)) (m0 : gmap string string) k v :
  type_map_from m0 pairs !! k = Some v → m0 !! k = Some v ∨ (k, v) ∈ pairs.
Proof.
  revert m0. induction pairs as [|[k' v'] pairs IH]; intros m0; simpl; [by left|].
  intros [Hm|Hin]%IH.
  - destruct (decide (k' = k)) as [->|Hne].
    + rewrite lookup_insert_eq in Hm. injection Hm as ->. right. left.
    + rewrite lookup_insert_ne in Hm by done. by left.
  - right. by right.
Qed.

Lemma segment_pair_vocabulary seg k v :
  segment_pair seg = Some (k, v) → k ∈ vocabulary ∧ v ∈ vocabulary.
Proof.
  unfold segment_pair. destruct (parse_conversion seg) as [p|] eqn:Hp; [|done].
  intros [= ->]. by apply parse_conversion_Ok in Hp as (a & b & _ & _ & _ & ? & ?).
Qed.

Lemma parse_type_map_vocabulary s m k v :
  parse_type_map s = Ok m → m !! k = Some v → k ∈ vocabulary ∧ v ∈ vocabulary.
Proof.
  unfold parse_type_map. intros Hok Hkv.
  pose proof (parse_conversions_Ok_valid _ _ _ Hok) as Hvalid.
  rewrite parse_conversions_valid in Hok by done. injection Hok as <-.
  apply type_map_from_lookup in Hkv as [Hkv|Hin]; [done|].
  apply list_elem_of_omap in Hin as (seg & _ & Hpair).
  by eapply segment_pair_vocabulary.
Qed.

(** X3.  One rule, written in any case and with any whitespace around its
    two labels: when both labels, trimmed and lower-cased, belong to the
    vocabulary, the string [old:new] is accepted and gives the mapping
    with the single entry old -> new in normal form. *)
Theorem X3_single_rule (a b : string) :
  normalize a ∈ vocabulary → normalize b ∈ vocabulary →
  parse_type_map (a +:+ ":" +:+ b) = Ok {[normalize a := normalize b]}.
Proof.
  intros Ha Hb.
  destruct (vocabulary_token_plain a Ha) as [Hcolon_a Hcomma_a].
  destruct (vocabulary_token_plain b Hb) as [Hcolon_b Hcomma_b].
  unfold parse_type_map. rewrite split_no_sep.
  2:{ rewrite !has_char_app, Hcomma_a, Hcomma_b. done. }
  assert (Hpair : parse_conversion (a +:+ ":" +:+ b) = Ok (normalize a, normalize b)).
  { apply parse_conversion_Ok. exists a, b. repeat split; try done.
    unfold two_tokens. change (a +:+ ":" +:+ b) with (a +:+ String ":"%char b).
    by rewrite split_app_sep, !split_no_sep. }
  simpl. rewrite Hpair. simpl. by rewrite insert_empty.
Qed.

Lemma X3_single_rule_witness :
  parse_type_map (" Int " +:+ ":" +:+ " FLOAT") = Ok {["int" := "float"]}.
Proof.
  apply (X3_single_rule " Int " " FLOAT"); by apply mem_true.
Defined.

(** X4.  Every entry of an accepted type map has its key and its value in
    the vocabulary {int, float, str, bool, object}. *)
Theorem X4_parsed_map_in_vocabulary (s : string) (m : gmap string string)
    (k v : string) :
  parse_type_map s = Ok m → m !! k = Some v → k ∈ vocabulary ∧ v ∈ vocabulary.
Proof. apply parse_type_map_vocabulary. Qed.

Lemma X4_parsed_map_in_vocabulary_witness :
  "int" ∈ vocabulary ∧ "float" ∈ vocabulary.
Proof.
  apply (X4_parsed_map_in_vocabulary " INT:Float ,bool:str"
           (type_map_of (segments " INT:Float ,bool:str")) "int" "float");
    by vm_compute.
Defined.

(** ** The loop body on any state *)

Lemma getitem_setitem_ne c col s (df : frame) :
  c ≠ col → getitem c (setitem col s df) = getitem c df.
Proof.
  intros Hne. induction df as [|[name s0] df IH]; simpl.
  - by destruct (String.eqb_spec col c).
  - destruct (String.eqb_spec name col) as [->|Hname]; simpl; [|by rewrite IH].
    by destruct (String.eqb_spec col c).
Qed.

Lemma columns_setitem col s (df : frame) :
  is_Some (getitem col df) → columns (setitem col s df) = columns df.
Proof.
  induction df as [|[name s0] df IH]; simpl.
  - by intros [? ?].
  - destruct (String.eqb_spec name col) as [->|Hne]; intros H; simpl; [done|].
    unfold columns in *. simpl. by rewrite IH.
Qed.

(** The loop body either finds no column under the label and raises
    [KeyError], or gives the column one pass. *)
Lemma generalize_column_cases py type_map col st :
  (getitem col (st_frame st) = None
   ∧ generalize_column py type_map col st = (Raise (OtherException "KeyError" col), st))
  ∨ (∃ s, getitem col (st_frame st) = Some s
          ∧ generalize_column py type_map col st
            = let '(r, s', evs) := column_pass py type_map col s in
              (r, mk_state (setitem col s' (st_frame st)) (st_trace st ++ evs))).
Proof.
  destruct st as [df tr]. simpl. destruct (getitem col df) as [s|] eqn:Hget.
  - right. exists s. split; [done|]. by apply generalize_column_spec.
  - left. split; [done|].
    unfold generalize_column, infer_col_type_name. unfold_M. by rewrite Hget.
Qed.

Lemma generalize_column_columns py type_map col st :
  columns (st_frame (generalize_column py type_map col st).2) = columns (st_frame st).
Proof.
  destruct (generalize_column_cases py type_map col st) as [[_ ->]|(s & Hget & ->)];
    [done|].
  destruct (column_pass py type_map col s) as [[r s'] evs]. simpl.
  apply columns_setitem. by rewrite Hget.
Qed.

Lemma for_each_columns_kept py type_map cols st :
  columns (st_frame (for_each cols (generalize_column py type_map) st).2)
  = columns (st_frame st).
Proof.
  revert st. induction cols as [|col cols IH]; intros st; simpl; [done|].
  unfold mbind, M_bind.
  pose proof (generalize_column_columns py type_map col st) as Hcol.
  destruct (generalize_column py type_map col st) as [[[]|e] st1]; simpl in *.
  - by rewrite IH.
  - done.
Qed.

(** X5.  A run of [generalize_data_type] returns the frame with the labels
    it came with, in the same order, whether the run succeeds, fails on a
    column or rejects the type map: no column is added, dropped, renamed or
    moved. *)
Theorem X5_labels_kept (py : runtime) (type_map_str : string) (st : state) :
  columns (st_frame (generalize_data_type py type_map_str st).2)
  = columns (st_frame st).
Proof.
  destruct (is_ok (parse_type_map type_map_str)) eqn:Hok.
  - destruct (parse_type_map type_map_str) as [m|] eqn:Hp; [|done].
    unfold generalize_data_type, parse_and_log. unfold_M. rewrite Hp. simpl.
    apply (for_each_columns_kept py m (columns (st_frame st)) st).
  - by destruct (generalize_rejected_map py type_map_str st Hok) as (msg & _ & ->).
Qed.

(** X6.  The loop body on one column leaves every other column of the
    frame as it is. *)
Theorem X6_other_columns_untouched (py : runtime) (type_map : gmap string string)
    (col c : string) (st : state) :
  c ≠ col →
  getitem c (st_frame (generalize_column py type_map col st).2)
  = getitem c (st_frame st).
Proof.
  intros Hne.
  destruct (generalize_column_cases py type_map col st) as [[_ ->]|(s & Hget & ->)];
    [done|].
  destruct (column_pass py type_map col s) as [[r s'] evs]. simpl.
  by apply getitem_setitem_ne.
Qed.

Lemma X6_other_columns_untouched_witness :
  getitem "b"
    (st_frame (generalize_column bare_runtime {["int" := "str"]} "a"
                 (mk_state [("a", Int64Series [1; 2]); ("b", Int64Series [3; 4])] [])).2)
  = Some (Int64Series [3; 4]).
Proof.
  by rewrite (X6_other_columns_untouched bare_runtime {["int" := "str"]} "a" "b"
                (mk_state [("a", Int64Series [1; 2]); ("b", Int64Series [3; 4])] [])).
Defined.

(** ** Columns of the four loaded dtypes *)

Lemma mapR_length {A B} (f : A → result B) l l' :
  mapR f l = Ok l' → length l' = length l.
Proof.
  revert l'. induction l as [|x l IH]; intros l'; simpl.
  - by intros [= <-].
  - destruct (f x) as [y|]; simpl; [|done].
    destruct (mapR f l) as [ys|]; simpl; [|done].
    intros [= <-]. simpl. by rewrite (IH ys).
Qed.

Lemma astype_loaded py t s s' :
  loaded_dtype s = true → Pandas.astype py t s = Ok s' →
  rows s' = rows s ∧ loaded_dtype s' = true.
Proof.
  intros Hs. unfold rows.
  destruct s as [cells|zs|fs|bs|name kind cells]; [| | | |done];
    destruct t; simpl; try (intros [= <-]; simpl; by rewrite ?length_fmap).
  - destruct (mapR (Pandas.py_float py) cells) as [fs|] eqn:Hm; simpl; [|done].
    intros [= <-]. simpl. by rewrite length_fmap, (mapR_length _ _ _ Hm).
  - destruct (mapR Pandas.py_int cells) as [zs|] eqn:Hm; simpl; [|done].
    intros [= <-]. simpl. by rewrite length_fmap, (mapR_length _ _ _ Hm).
  - destruct (forallb Pandas.is_finite fs); [|done].
    intros [= <-]. simpl. by rewrite !length_fmap.
Qed.

Lemma infer_loaded py s :
  loaded_dtype s = true →
  rows (infer py s).1 = rows s ∧ loaded_dtype (infer py s).1 = true
  ∧ (infer py s).2 ∈ ["str"; "int"; "float"; "bool"].
Proof.
  intros Hs. destruct s as [cells|zs|fs|bs|name kind cells]; [| | | |done];
    unfold rows; simpl; rewrite ?length_fmap; repeat split; set_solver.
Qed.

Lemma cast_loaded py t s s' evs :
  loaded_dtype s = true → cast py t s = (Ok s', evs) →
  rows s' = rows s ∧ loaded_dtype s' = true.
Proof.
  intros Hs. unfold cast.
  repeat (case_match;
          [intros [= Hast ?];
           first [by apply (astype_loaded py ty_float s)
                 |by apply (astype_loaded py ty_str s)
                 |by apply (astype_loaded py ty_int s)
                 |by apply (astype_loaded py ty_bool s)]|]).
  case_match; [|done]. intros [= <- ?]. by split.
Qed.

Lemma column_pass_loaded py type_map col s :
  loaded_dtype s = true →
  rows (column_pass py type_map col s).1.2 = rows s
  ∧ loaded_dtype (column_pass py type_map col s).1.2 = true.
Proof.
  intros Hs. destruct (infer_loaded py s Hs) as (Hrows & Hload & _).
  unfold column_pass. destruct (infer py s) as [s1 name]. simpl in *.
  destruct (type_map !! name) as [t|]; [|done].
  destruct (cast py t s1) as [[s2|e] evs] eqn:Hcast.
  - destruct (cast_loaded _ _ _ _ _ Hload Hcast) as [Hr Hl]. simpl. by rewrite Hr.
  - by destruct e.
Qed.

Lemma frame_pass_shape py type_map df :
  Forall (λ cs, loaded_dtype cs.2 = true) df →
  shape (frame_pass py type_map df).1.2 = shape df.
Proof.
  induction 1 as [|[col s] df Hs _ IH]; [done|]. simpl in *.
  destruct (column_pass_loaded py type_map col s Hs) as [Hrows _].
  destruct (column_pass py type_map col s) as [[[[]|e] s'] evs]; simpl in *.
  - destruct (frame_pass py type_map df) as [[r df'] evs']. simpl in *.
    unfold shape in *. simpl. by rewrite Hrows, IH.
  - unfold shape. simpl. by rewrite Hrows.
Qed.

(** X7.  On a frame with unique labels whose columns have the dtypes of a
    CSV load (object, int64, float64, bool), a run returns, under every
    label, as many rows as it found there; this holds as well for a run
    that fails or rejects the type map. *)
Theorem X7_row_counts_kept (py : runtime) (type_map_str : string) (df : frame)
    (tr : list event) :
  wf_frame df → Forall (λ cs, loaded_dtype cs.2 = true) df →
  shape (st_frame (generalize_data_type py type_map_str (mk_state df tr)).2)
  = shape df.
Proof.
  intros Hwf Hload. destruct (is_ok (parse_type_map type_map_str)) eqn:Hok.
  - destruct (parse_type_map type_map_str) as [m|] eqn:Hp; [|done].
    rewrite (generalize_data_type_spec py _ _ df tr Hwf Hp).
    pose proof (frame_pass_shape py m df Hload) as Hshape.
    by destruct (frame_pass py m df) as [[r df'] evs].
  - by destruct (generalize_rejected_map py type_map_str (mk_state df tr) Hok)
      as (msg & _ & ->).
Qed.

Lemma X7_row_counts_kept_witness :
  shape (st_frame (generalize_data_type bare_runtime "str:int,int:str"
                     (mk_state [("a", ObjectSeries [PyStr "7"; PyStr "x"; PyFloat NaN]);
                                ("b", Int64Series [1; 2; 3])] [])).2)
  = [("a", 3%nat); ("b", 3%nat)].
Proof.
  apply (X7_row_counts_kept bare_runtime "str:int,int:str"
           [("a", ObjectSeries [PyStr "7"; PyStr "x"; PyFloat NaN]);
            ("b", Int64Series [1; 2; 3])] []).
  - apply (bool_decide_unpack _). by vm_compute.
  - by repeat constructor.
Defined.

Lemma astype_dtype py t s s' :
  loaded_dtype s = true → Pandas.astype py t s = Ok s' →
  Pandas.dtype_of s'
  = match t with
    | ty_float => dt_float64
    | ty_str => dt_object
    | ty_int => dt_int64
    | ty_bool => dt_bool
    end.
Proof.
  intros Hs.
  destruct s as [cells|zs|fs|bs|name kind cells]; [| | | |done];
    destruct t; simpl; try (by intros [= <-]).
  - destruct (mapR (Pandas.py_float py) cells); simpl; [|done]. by intros [= <-].
  - destruct (mapR Pandas.py_int cells); simpl; [|done]. by intros [= <-].
  - destruct (forallb Pandas.is_finite fs); [|done]. by intros [= <-].
Qed.

(** X8.  After the loop body has succeeded on a column of a loaded dtype
    whose label the map sends to float, str, int or bool, the column stored
    under the label has the storage dtype of the target: float64, object,
    int64 or bool. *)
Theorem X8_converted_column_has_target_dtype (py : runtime)
    (type_map : gmap string string) (col new_type : string) (d : dtype)
    (s : series) (df : frame) (tr : list event) (st' : state) :
  getitem col df = Some s → loaded_dtype s = true →
  type_map !! (infer py s).2 = Some new_type → target_dtype new_type = Some d →
  generalize_column py type_map col (mk_state df tr) = (Ok tt, st') →
  ∃ s', getitem col (st_frame st') = Some s' ∧ Pandas.dtype_of s' = d.
Proof.
  intros Hget Hload Hmap Htarget.
  rewrite (generalize_column_spec _ _ _ _ _ _ Hget).
  destruct (infer_loaded py s Hload) as (_ & Hload1 & _).
  unfold column_pass. destruct (infer py s) as [s1 name]. simpl in *.
  rewrite Hmap. unfold cast, target_dtype in *.
  repeat (case_match;
          [destruct (Pandas.astype py _ s1) as [s2|[]] eqn:Hast; [|done..];
           intros [= <-]; exists s2; simpl; split; [apply getitem_setitem|];
           rewrite (astype_dtype _ _ _ _ Hload1 Hast); congruence|]).
  done.
Qed.

Lemma X8_converted_column_has_target_dtype_witness :
  ∃ s', getitem "a"
          (st_frame (generalize_column bare_runtime {["int" := "bool"]} "a"
                       (mk_state [("a", Int64Series [0; 5])] [])).2) = Some s'
        ∧ Pandas.dtype_of s' = dt_bool.
Proof.
  apply (X8_converted_column_has_target_dtype bare_runtime {["int" := "bool"]}
           "a" "bool" dt_bool (Int64Series [0; 5]) [("a", Int64Series [0; 5])] []);
    by vm_compute.
Defined.

Lemma infer_twice py s :
  infer py (infer py s).1 = infer py s.
Proof.
  destruct s as [cells|zs|fs|bs|name [] cells]; try done.
  rewrite !infer_object. cbn [fst]. rewrite infer_object. by rewrite text_of_text.
Qed.

Lemma infer_vocabulary py s : (infer py s).2 ∈ vocabulary.
Proof. destruct s as [| | | |? [] ?]; simpl; unfold vocabulary; set_solver. Qed.

(** X9.  Inferring the label of a column that is in the frame succeeds
    with a label of the vocabulary, and inferring it again on the state it
    left gives the same label and changes nothing more. *)
Theorem X9_inference_settles (py : runtime) (col : string) (s : series) (st : state) :
  getitem col (st_frame st) = Some s →
  ∃ name st1,
    infer_col_type_name py col st = (Ok name, st1)
    ∧ name ∈ vocabulary
    ∧ infer_col_type_name py col st1 = (Ok name, st1).
Proof.
  destruct st as [df tr]. simpl. intros Hget.
  exists (infer py s).2, (mk_state (setitem col (infer py s).1 df) tr).
  split; [by apply infer_col_type_name_spec|]. split; [apply infer_vocabulary|].
  rewrite (infer_col_type_name_spec py col (infer py s).1) by apply getitem_setitem.
  by rewrite infer_twice, setitem_setitem.
Qed.

Lemma X9_inference_settles_witness :
  ∃ name st1,
    infer_col_type_name bare_runtime "a"
      (mk_state [("a", ObjectSeries [PyStr "x"; PyFloat NaN; PyBool true])] [])
    = (Ok name, st1)
    ∧ name ∈ vocabulary
    ∧ infer_col_type_name bare_runtime "a" st1 = (Ok name, st1).
Proof.
  by apply (X9_inference_settles bare_runtime "a"
              (ObjectSeries [PyStr "x"; PyFloat NaN; PyBool true])
              (mk_state [("a", ObjectSeries [PyStr "x"; PyFloat NaN; PyBool true])] [])).
Defined.

Lemma cast_own_label py s :
  loaded_dtype s = true →
  cast py (infer py s).2 (infer py s).1 = (Ok (infer py s).1, []).
Proof.
  destruct s as [cells|zs|fs|bs|name kind cells]; try done. intros _.
  rewrite infer_object. unfold cast. simpl. by rewrite text_of_text.
Qed.

(** X10.  A rule that sends a label to object, or that sends the label of
    a column of dtype object, int64, float64 or bool to that label itself,
    changes no value: the loop body succeeds and leaves the column as the
    inference step left it, exactly as when the label is not a key of the
    map; the one difference is the record "Converted column ..." it
    logs. *)
Theorem X10_rule_without_effect (py : runtime) (type_map : gmap string string)
    (col new_type : string) (s : series) (df : frame) (tr : list event) :
  getitem col df = Some s →
  type_map !! (infer py s).2 = Some new_type →
  new_type = "object" ∨ (new_type = (infer py s).2 ∧ loaded_dtype s = true) →
  generalize_column py type_map col (mk_state df tr)
  = (Ok tt, mk_state (setitem col (infer py s).1 df)
              (tr ++ [EvLog INFO (converted_msg col (infer py s).2 new_type)]))
  ∧ generalize_column py (delete (infer py s).2 type_map) col (mk_state df tr)
    = (Ok tt, mk_state (setitem col (infer py s).1 df) tr).
Proof.
  intros Hget Hmap Hrule. rewrite !(generalize_column_spec _ _ _ _ _ _ Hget).
  unfold column_pass. pose proof (cast_own_label py s) as Hown.
  destruct (infer py s) as [s1 name]. simpl in *.
  rewrite Hmap, lookup_delete_eq. split; [|by rewrite app_nil_r].
  destruct Hrule as [->|[-> Hload]]; [done|]. by rewrite (Hown Hload).
Qed.

Lemma X10_rule_without_effect_witness :
  generalize_column bare_runtime {["int" := "object"]} "a"
    (mk_state [("a", Int64Series [1; 2])] [])
  = (Ok tt, mk_state [("a", Int64Series [1; 2])]
              [EvLog INFO "Converted column 'a' from int to object"]).
Proof.
  apply (X10_rule_without_effect bare_runtime {["int" := "object"]} "a" "object"
           (Int64Series [1; 2]) [("a", Int64Series [1; 2])] []).
  - reflexivity.
  - by vm_compute.
  - by left.
Defined.











Lemma cast_vocabulary_silent py t s :
  t ∈ vocabulary → (cast py t s).2 = [].
Proof.
  unfold vocabulary. intros Ht.
  repeat (apply elem_of_cons in Ht as [->|Ht]; [done|]).
  by apply elem_of_nil in Ht.
Qed.

Lemma column_pass_not_defensive py type_map col s :
  (∀ k v, type_map !! k = Some v → v ∈ vocabulary) →
  Forall (λ ev, ¬ defensive_record ev) (column_pass py type_map col s).2.
Proof.
  intros Hvoc. unfold column_pass. destruct (infer py s) as [s1 name].
  destruct (type_map !! name) as [t|] eqn:Hmap; [|by constructor].
  pose proof (cast_vocabulary_silent py t s1 (Hvoc _ _ Hmap)) as Hsilent.
  destruct (cast py t s1) as [[s2|[msg|msg|cls msg]] evs]; simpl in *; subst evs;
    repeat constructor; by intros [t' [=]].
Qed.

Lemma for_each_not_defensive py type_map cols st :
  (∀ k v, type_map !! k = Some v → v ∈ vocabulary) →
  ∃ evs, st_trace (for_each cols (generalize_column py type_map) st).2
         = st_trace st ++ evs
         ∧ Forall (λ ev, ¬ defensive_record ev) evs.
Proof.
  intros Hvoc. revert st. induction cols as [|col cols IH]; intros st; simpl.
  - exists []. split; [by rewrite app_nil_r|by constructor].
  - unfold mbind, M_bind.
    assert (∃ evs1, st_trace (generalize_column py type_map col st).2
                    = st_trace st ++ evs1
                    ∧ Forall (λ ev, ¬ defensive_record ev) evs1)
      as (evs1 & Htr1 & Hl1).
    { destruct (generalize_column_cases py type_map col st)
        as [[_ ->]|(s & Hget & ->)].
      - exists []. split; [by rewrite app_nil_r|by constructor].
      - pose proof (column_pass_not_defensive py type_map col s Hvoc) as Hnd.
        destruct (column_pass py type_map col s) as [[r s'] evs]. by exists evs. }
    destruct (generalize_column py type_map col st) as [[[]|e] st1]; simpl in *.
    + destruct (IH st1) as (evs2 & Htr2 & Hl2).
      exists (evs1 ++ evs2). rewrite Htr2, Htr1, app_assoc. split; [done|].
      by apply Forall_app.
    + by exists evs1.
Qed.

(** X13.  The defensive branch of lines 94-96 never runs: whatever the
    type-map string and the frame, no record "Invalid new type specified
    for conversion: ..." is among the records a run of
    [generalize_data_type] logs, because every target of an accepted map
    is in the vocabulary. *)
Theorem X13_defensive_branch_never_runs (py : runtime) (type_map_str : string)
    (st : state) :
  ∃ evs, st_trace (generalize_data_type py type_map_str st).2 = st_trace st ++ evs
         ∧ Forall (λ ev, ¬ defensive_record ev) evs.
Proof.
  destruct (is_ok (parse_type_map type_map_str)) eqn:Hok.
  - destruct (parse_type_map type_map_str) as [m|] eqn:Hp; [|done].
    unfold generalize_data_type, parse_and_log. unfold_M. rewrite Hp. simpl.
    apply (for_each_not_defensive py m (columns (st_frame st)) st).
    intros k v Hkv. by destruct (parse_type_map_vocabulary _ _ _ _ Hp Hkv).
  - destruct (generalize_rejected_map py type_map_str st Hok) as (msg & _ & ->).
    eexists. split; [done|]. repeat constructor. by intros [t' [=]].
Qed.

(** ** Round trips of the casts *)

Lemma is_int_space_is_space c :
  PyStr.is_space c = false → Pandas.is_int_space c = false.
Proof. by destruct c as [[] [] [] [] [] [] [] []]. Qed.

Lemma int_rstrip_no_space s : no_space s = true → Pandas.int_rstrip s = s.
Proof.
  induction s as [|c s IH]; simpl; [done|].
  intros [Hc Hs]%andb_true_iff. rewrite (IH Hs).
  apply negb_true_iff, is_int_space_is_space in Hc. rewrite Hc. by destruct s.
Qed.

Lemma int_strip_no_space s :
  no_space s = true → Pandas.int_rstrip (Pandas.int_lstrip s) = s.
Proof.
  intros Hs.
  assert (Pandas.int_lstrip s = s) as ->; [|by apply int_rstrip_no_space].
  destruct s as [|c s]; simpl in *; [done|].
  apply andb_true_iff in Hs as [Hc _].
  apply negb_true_iff, is_int_space_is_space in Hc. by rewrite Hc.
Qed.

Lemma no_space_string_of_uint d : no_space (NilEmpty.string_of_uint d) = true.
Proof. induction d; simpl; by rewrite ?IHd. Qed.

Lemma digits_string_of_uint d acc after_digit :
  d ≠ Decimal.Nil ∨ after_digit = true →
  Pandas.digits (NilEmpty.string_of_uint d) acc after_digit = Some (uint_value d acc).
Proof.
  revert acc after_digit.
  induction d as [|d IH|d IH|d IH|d IH|d IH|d IH|d IH|d IH|d IH|d IH];
    intros acc after_digit Hd;
    [by destruct Hd as [?| ->]|..];
    cbn -[Z.mul Z.add]; rewrite IH by (by right); done.
Qed.

Lemma uint_value_pos d acc :
  uint_value d (Z.pos acc) = Z.pos (Pos.of_uint_acc d acc).
Proof.
  revert acc. induction d; intros acc; simpl; [done|..];
    match goal with
    | |- uint_value _ ?z = _ =>
        match goal with
        | |- _ = Z.pos (Pos.of_uint_acc _ ?q) =>
            replace z with (Z.pos q) by lia
        end
    end; apply IHd.
Qed.

Lemma uint_value_0 d : uint_value d 0 = Z.of_N (Pos.of_uint d).
Proof.
  induction d; simpl; [done|done|..]; apply (uint_value_pos d).
Qed.

(** Reading the decimal text of an integer gives the integer back. *)
Lemma int_of_str_of_Z z : Pandas.int_of_str (PyStr.of_Z z) = Some z.
Proof.
  unfold Pandas.int_of_str, PyStr.of_Z. destruct z as [|p|p]; [done|..].
  - change (Z.to_int (Z.pos p)) with (Decimal.Pos (Pos.to_uint p)).
    unfold NilZero.string_of_int, NilZero.string_of_uint.
    pose proof (DecimalPos.Unsigned.to_uint_nonnil p) as Hnil.
    pose proof (DecimalPos.Unsigned.of_to p) as Hback.
    destruct (Pos.to_uint p) as [|d|d|d|d|d|d|d|d|d|d] eqn:Hd; [done|..];
      rewrite int_strip_no_space by apply no_space_string_of_uint;
      match goal with
      | |- context [NilEmpty.string_of_uint ?u] =>
          transitivity (Pandas.digits (NilEmpty.string_of_uint u) 0 false);
          [reflexivity|rewrite digits_string_of_uint by (by left)]
      end;
      by rewrite uint_value_0, Hback.
  - change (Z.to_int (Z.neg p)) with (Decimal.Neg (Pos.to_uint p)).
    unfold NilZero.string_of_int, NilZero.string_of_uint.
    pose proof (DecimalPos.Unsigned.to_uint_nonnil p) as Hnil.
    pose proof (DecimalPos.Unsigned.of_to p) as Hback.
    assert (Hstr : (match Pos.to_uint p with
                    | Decimal.Nil => "0"
                    | _ => NilEmpty.string_of_uint (Pos.to_uint p)
                    end) = NilEmpty.string_of_uint (Pos.to_uint p))
      by (by destruct (Pos.to_uint p)).
    rewrite Hstr.
    rewrite (int_strip_no_space (String "-" _)) by apply no_space_string_of_uint.
    rewrite digits_string_of_uint by (by left).
    by rewrite uint_value_0, Hback.
Qed.

Lemma mapR_py_int_of_Z zs :
  Forall (λ z, Pandas.in_int64 z = true) zs →
  mapR Pandas.py_int ((λ z, PyStr (PyStr.of_Z z)) <$> zs) = Ok zs.
Proof.
  induction 1 as [|z zs Hz _ IH]; [done|]. csimpl.
  rewrite int_of_str_of_Z. unfold Pandas.to_int64. rewrite Hz. simpl. by rewrite IH.
Qed.

(** X14.  Integers survive the way through text.  When the loop body turns
    an int column whose values fit an int64 into text (rule int -> str) and
    then turns that text into int (rule str -> int), both passes succeed
    and the frame is back to what it was. *)
Theorem X14_int_str_int_round_trip (py : runtime) (col : string) (zs : list Z)
    (df : frame) (tr : list event) :
  getitem col df = Some (Int64Series zs) →
  Forall (λ z, Pandas.in_int64 z = true) zs →
  ∃ st1 tr2,
    generalize_column py {["int" := "str"]} col (mk_state df tr) = (Ok tt, st1)
    ∧ generalize_column py {["str" := "int"]} col st1 = (Ok tt, mk_state df tr2).
Proof.
  intros Hget Hfit.
  rewrite (generalize_column_spec _ _ _ _ _ _ Hget). simpl.
  eexists _, _. split; [reflexivity|].
  rewrite (generalize_column_spec py _ col
             (ObjectSeries ((λ z, PyStr (PyStr.of_Z z)) <$> zs)))
    by apply getitem_setitem.
  unfold column_pass. rewrite infer_object.
  assert (Htext : (λ v, PyStr (Pandas.py_str py v)) <$> ((λ z, PyStr (PyStr.of_Z z)) <$> zs)
                  = (λ z, PyStr (PyStr.of_Z z)) <$> zs).
  { rewrite <- list_fmap_compose. by apply list_fmap_ext. }
  rewrite Htext. cbn [fst snd]. rewrite lookup_singleton_eq.
  change (cast py "int" ?s) with (Pandas.astype py ty_int s, @nil event).
  rewrite astype_int_object, (mapR_py_int_of_Z zs Hfit). simpl.
  by rewrite setitem_setitem, (setitem_getitem _ _ _ Hget).
Qed.

Lemma X14_int_str_int_round_trip_witness :
  ∃ st1 tr2,
    generalize_column bare_runtime {["int" := "str"]} "a"
      (mk_state [("a", Int64Series [0; -45; 1203])] []) = (Ok tt, st1)
    ∧ generalize_column bare_runtime {["str" := "int"]} "a" st1
      = (Ok tt, mk_state [("a", Int64Series [0; -45; 1203])] tr2).
Proof.
  apply (X14_int_str_int_round_trip bare_runtime "a" [0; -45; 1203]
           [("a", Int64Series [0; -45; 1203])] []).
  - reflexivity.
  - by repeat constructor.
Defined.

(** X15.  Booleans survive the way through int: after the rule bool -> int
    and then the rule int -> bool on the same column the frame is back to
    what it was.  The way through text loses them: after bool -> str and
    then str -> bool every cell is True, the text ["False"] included. *)
Theorem X15_bool_round_trips (py : runtime) (col : string) (bs : list bool)
    (df : frame) (tr : list event) :
  getitem col df = Some (BoolSeries bs) →
  (∃ st1 tr2,
     generalize_column py {["bool" := "int"]} col (mk_state df tr) = (Ok tt, st1)
     ∧ generalize_column py {["int" := "bool"]} col st1 = (Ok tt, mk_state df tr2))
  ∧ (∃ st1 tr2,
       generalize_column py {["bool" := "str"]} col (mk_state df tr) = (Ok tt, st1)
       ∧ generalize_column py {["str" := "bool"]} col st1
         = (Ok tt, mk_state (setitem col (BoolSeries ((λ _, true) <$> bs)) df) tr2)).
Proof.
  intros Hget. split.
  - rewrite (generalize_column_spec _ _ _ _ _ _ Hget). simpl.
    eexists _, _. split; [reflexivity|].
    rewrite (generalize_column_spec py _ col (Int64Series (Z.b2z <$> bs)))
      by apply getitem_setitem.
    unfold column_pass.
    change (infer py (Int64Series ?l)) with (Int64Series l, "int").
    cbv beta iota zeta. rewrite lookup_singleton_eq.
    change (cast py "bool" ?s) with (Pandas.astype py ty_bool s, @nil event).
    assert (Hback : map (λ z, negb (z =? 0)%Z) (map Z.b2z bs) = bs).
    { clear Hget. induction bs as [|[] bs IH]; simpl; [done|..]; by rewrite IH. }
    simpl. rewrite setitem_setitem. do 2 f_equal.
    etrans; [|apply (setitem_getitem _ _ _ Hget)]. do 2 f_equal. exact Hback.
  - rewrite (generalize_column_spec _ _ _ _ _ _ Hget). simpl.
    eexists _, _. split; [reflexivity|].
    rewrite (generalize_column_spec py _ col
               (ObjectSeries ((λ b, PyStr (PyStr.of_bool b)) <$> bs)))
      by apply getitem_setitem.
    unfold column_pass. rewrite infer_object. cbv beta iota zeta.
    rewrite lookup_singleton_eq.
    change (cast py "bool" ?s) with (Pandas.astype py ty_bool s, @nil event).
    assert (Htrue : map Pandas.py_bool
                      (map (λ v, PyStr (Pandas.py_str py v))
                         (map (λ b, PyStr (PyStr.of_bool b)) bs))
                    = map (λ _, true) bs).
    { clear Hget. induction bs as [|[] bs IH]; simpl; [done|..]; by rewrite IH. }
    simpl. rewrite setitem_setitem. do 4 f_equal. exact Htrue.
Qed.

Lemma X15_bool_round_trips_witness :
  ∃ st1 tr2,
    generalize_column bare_runtime {["bool" := "str"]} "a"
      (mk_state [("a", BoolSeries [true; false])] []) = (Ok tt, st1)
    ∧ generalize_column bare_runtime {["str" := "bool"]} "a" st1
      = (Ok tt, mk_state [("a", BoolSeries [true; true])] tr2).
Proof.
  apply (X15_bool_round_trips bare_runtime "a" [true; false]
           [("a", BoolSeries [true; false])] [] eq_refl).
Defined.

(** ** [main]: the stages of a run *)

(** A run whose call to [generalize_data_type] returns. *)
Lemma main_generalize_returns py w input_file output_file type_map_str df st' :
  path_exists w input_file = true → read_csv w input_file = Ok df →
  generalize_data_type py type_map_str
    (mk_state df [EvPathExists input_file; EvReadCsv input_file]) = (Ok tt, st') →
  main py w input_file output_file type_map_str
  = match to_csv w output_file (st_frame st') with
    | Ok _ =>
        (0, st_trace st'
              ++ [EvToCsv output_file (st_frame st');
                  EvLog INFO ("Successfully generalized data types and saved to "
                                +:+ output_file)])
    | Raise e =>
        (1, st_trace st' ++ [EvToCsv output_file (st_frame st')]
              ++ handler_records input_file e)
    end.
Proof.
  intros Hex Hread Hgen. unfold main, main_body. unfold_M. rewrite Hex, Hread. simpl.
  rewrite Hgen. simpl. destruct (to_csv w output_file (st_frame st')) as [[]|e]; simpl.
  - by rewrite <- app_assoc.
  - rewrite main_handlers_spec. simpl. by rewrite <- app_assoc.
Qed.

(** X16.  A run that finds no input file, or whose load of the table
    raises, ends with exit code 1 before the type map is looked at: the
    exit code and the trace are the same whatever the type-map string and
    the output path, the trace holds no write, and a missing file is not
    even read. *)
Theorem X16_errors_before_the_type_map (py : runtime) (w : world)
    (input_file output_file type_map_str : string) :
  (path_exists w input_file = false →
   main py w input_file output_file type_map_str
   = (1, [EvPathExists input_file;
          EvLog ERROR ("Input file not found: " +:+ input_file)]))
  ∧ (∀ e, path_exists w input_file = true → read_csv w input_file = Raise e →
          main py w input_file output_file type_map_str
          = (1, [EvPathExists input_file; EvReadCsv input_file]
                  ++ handler_records input_file e)
          ∧ no_write (main py w input_file output_file type_map_str).2).
Proof.
  split.
  - apply main_missing_file.
  - intros e Hex Hread. rewrite (main_read_fails _ _ _ _ _ _ Hex Hread).
    split; [done|]. simpl. repeat constructor. apply handler_records_no_write.
Qed.

Lemma X16_errors_before_the_type_map_witness :
  main bare_runtime (one_file "in.csv" []) "other.csv" "out.csv" "not a type map"
  = (1, [EvPathExists "other.csv"; EvLog ERROR "Input file not found: other.csv"]).
Proof.
  by apply (proj1 (X16_errors_before_the_type_map bare_runtime (one_file "in.csv" [])
                     "other.csv" "out.csv" "not a type map")).
Defined.

(** X17.  The exit code is 0 or 1, and it is 0 exactly when the input file
    exists, the load returns a table, [generalize_data_type] returns on it
    and the write of the result succeeds. *)
Theorem X17_exit_code (py : runtime) (w : world)
    (input_file output_file type_map_str : string) :
  ((main py w input_file output_file type_map_str).1 = 0
   ∨ (main py w input_file output_file type_map_str).1 = 1)
  ∧ ((main py w input_file output_file type_map_str).1 = 0 ↔
     path_exists w input_file = true
     ∧ ∃ df st',
         read_csv w input_file = Ok df
         ∧ generalize_data_type py type_map_str
             (mk_state df [EvPathExists input_file; EvReadCsv input_file])
           = (Ok tt, st')
         ∧ to_csv w output_file (st_frame st') = Ok tt).
Proof.
  destruct (path_exists w input_file) eqn:Hex.
  2:{ rewrite (main_missing_file _ _ _ _ _ Hex). simpl.
      split; [by right|]. split; [done|]. by intros [? _]. }
  destruct (read_csv w input_file) as [df|e] eqn:Hread.
  2:{ rewrite (main_read_fails _ _ _ _ _ _ Hex Hread). simpl.
      split; [by right|]. split; [done|]. by intros (_ & ? & ? & ? & _). }
  destruct (generalize_data_type py type_map_str
              (mk_state df [EvPathExists input_file; EvReadCsv input_file]))
    as [[[]|e] st'] eqn:Hgen.
  - rewrite (main_generalize_returns _ _ _ _ _ _ _ Hex Hread Hgen).
    destruct (to_csv w output_file (st_frame st')) as [[]|e] eqn:Hwrite; simpl.
    + split; [by left|]. split; [|done]. intros _. split; [done|].
      by exists df, st'.
    + split; [by right|]. split; [done|].
      intros (_ & df' & st'' & [= <-] & Hgen' & Hwrite').
      rewrite Hgen in Hgen'. injection Hgen' as <-. congruence.
  - rewrite (main_generalize_fails _ _ _ _ _ _ _ _ Hex Hread Hgen). simpl.
    split; [by right|]. split; [done|].
    intros (_ & df' & st'' & [= <-] & Hgen' & _). congruence.
Qed.

(** X18.  In a run that reaches the write, the frame handed to [to_csv] is
    the frame [generalize_data_type] left, it goes to the output path, and
    it is the only write of the run; when the write succeeds the run logs
    the success record last and exits with 0, when it raises the run exits
    with 1. *)
Theorem X18_one_write_of_the_result (py : runtime) (w : world)
    (input_file output_file type_map_str : string) (df : frame) (st' : state) :
  path_exists w input_file = true → read_csv w input_file = Ok df →
  generalize_data_type py type_map_str
    (mk_state df [EvPathExists input_file; EvReadCsv input_file]) = (Ok tt, st') →
  no_write (st_trace st')
  ∧ main py w input_file output_file type_map_str
    = match to_csv w output_file (st_frame st') with
      | Ok _ =>
          (0, st_trace st'
                ++ [EvToCsv output_file (st_frame st');
                    EvLog INFO ("Successfully generalized data types and saved to "
                                  +:+ output_file)])
      | Raise e =>
          (1, st_trace st' ++ [EvToCsv output_file (st_frame st')]
                ++ handler_records input_file e)
      end.
Proof.
  intros Hex Hread Hgen. split; [|by apply (main_generalize_returns _ _ _ _ _ _ _ Hex Hread Hgen)].
  destruct (generalize_no_write py type_map_str
              (mk_state df [EvPathExists input_file; EvReadCsv input_file]))
    as (evs & Htr & Hlogs).
  rewrite Hgen in Htr. cbn [snd st_trace] in Htr. rewrite Htr.
  apply Forall_app. split; [by repeat constructor|done].
Qed.

Lemma X18_one_write_of_the_result_witness :
  main bare_runtime (one_file "in.csv" [("a", Int64Series [1; 2])])
    "in.csv" "out.csv" "int:bool"
  = (0, [EvPathExists "in.csv"; EvReadCsv "in.csv";
         EvLog INFO "Converted column 'a' from int to bool";
         EvToCsv "out.csv" [("a", BoolSeries [true; true])];
         EvLog INFO "Successfully generalized data types and saved to out.csv"]).
Proof.
  destruct (X18_one_write_of_the_result bare_runtime
              (one_file "in.csv" [("a", Int64Series [1; 2])])
              "in.csv" "out.csv" "int:bool" [("a", Int64Series [1; 2])]
              (mk_state [("a", BoolSeries [true; true])]
                 [EvPathExists "in.csv"; EvReadCsv "in.csv";
                  EvLog INFO "Converted column 'a' from int to bool"]))
    as [_ Hmain].
  - reflexivity.
  - reflexivity.
  - by vm_compute.
  - rewrite Hmain. reflexivity.
Defined.

(** ** Columns the map does not name *)

Lemma generalize_column_keeps py type_map c col s st :
  getitem col (st_frame st) = Some s → Pandas.dtype_of s ≠ dt_object →
  type_map !! (infer py s).2 = None →
  getitem col (st_frame (generalize_column py type_map c st).2) = Some s.
Proof.
  intros Hget Hdt Hnone. destruct (decide (c = col)) as [->|Hne].
  - destruct st as [df tr]. simpl in Hget.
    rewrite (generalize_column_spec _ _ _ _ _ _ Hget).
    rewrite (column_pass_typed_unmapped _ _ _ _ Hdt Hnone). simpl.
    apply getitem_setitem.
  - destruct (generalize_column_cases py type_map c st) as [[_ ->]|(s0 & _ & ->)];
      [done|].
    destruct (column_pass py type_map c s0) as [[r s'] evs]. simpl.
    rewrite getitem_setitem_ne by done. done.
Qed.

Lemma for_each_keeps py type_map cols col s st :
  getitem col (st_frame st) = Some s → Pandas.dtype_of s ≠ dt_object →
  type_map !! (infer py s).2 = None →
  getitem col (st_frame (for_each cols (generalize_column py type_map) st).2) = Some s.
Proof.
  intros Hget Hdt Hnone. revert st Hget.
  induction cols as [|c cols IH]; intros st Hget; simpl; [done|].
  unfold mbind, M_bind.
  pose proof (generalize_column_keeps py type_map c col s st Hget Hdt Hnone) as Hkeep.
  destruct (generalize_column py type_map c st) as [[[]|e] st1]; simpl in *.
  - by apply IH.
  - done.
Qed.

(** X19.  A column of dtype int64, float64, bool or of another non-object
    dtype whose label is not a key of the type map is in the frame after
    the run exactly as it was before, value for value, whether the run
    succeeds, fails on another column or rejects the type map. *)
Theorem X19_unmapped_typed_column_unchanged (py : runtime) (type_map_str : string)
    (col : string) (s : series) (st : state) :
  getitem col (st_frame st) = Some s → Pandas.dtype_of s ≠ dt_object →
  (∀ type_map, parse_type_map type_map_str = Ok type_map →
               type_map !! (infer py s).2 = None) →
  getitem col (st_frame (generalize_data_type py type_map_str st).2) = Some s.
Proof.
  intros Hget Hdt Hnone. destruct (is_ok (parse_type_map type_map_str)) eqn:Hok.
  - destruct (parse_type_map type_map_str) as [m|] eqn:Hp; [|done].
    unfold generalize_data_type, parse_and_log. unfold_M. rewrite Hp. simpl.
    by apply (for_each_keeps py m (columns (st_frame st)) col s st Hget Hdt), Hnone.
  - by destruct (generalize_rejected_map py type_map_str st Hok) as (msg & _ & ->).
Qed.

Lemma X19_unmapped_typed_column_unchanged_witness :
  getitem "b"
    (st_frame (generalize_data_type bare_runtime "int:str,str:int"
                 (mk_state [("a", ObjectSeries [PyStr "x"]);
                            ("b", Float64Series [NaN; float64 3 (-1)]);
                            ("c", Int64Series [4])] [])).2)
  = Some (Float64Series [NaN; float64 3 (-1)]).
Proof.
  apply (X19_unmapped_typed_column_unchanged bare_runtime "int:str,str:int" "b"
           (Float64Series [NaN; float64 3 (-1)])).
  - reflexivity.
  - done.
  - intros type_map Hparse. vm_compute in Hparse. injection Hparse as <-.
    by vm_compute.
Defined.
